(** * Announcements router of the High School Management System API

    A shallow embedding of [src/backend/routers/announcements.py] and the
    verification of its specification.

    The module is routing and persistence glue: five request handlers over
    two document-store collections.  The embedding keeps that shape:

    - documents are Python dicts, modelled as [gmap string value];
    - the handlers run in a small state-and-exception monad [M] over the
      [world] (the contents of the two collections);
    - the store driver and [datetime.fromisoformat] are interfaces
      ([Driver], [DatetimeLib]) with a reference instance each, so that what is
      proved of the control flow holds for every driver and every
      interpreter version, and what is proved of the stored data holds for
      the reference store. *)

From Stdlib Require Import ZArith Ascii String List.
From stdpp Require Import base option list sorting gmap strings.

Local Open Scope string_scope.

(** ** Values and documents *)

(** [bson.ObjectId]: the bytes of the identifier, kept in the form [str]
    prints them, two lower-case hexadecimal digits a byte.  A generated
    identifier has twelve bytes; [ObjectId(s)] can build a shorter one. *)
Inductive ObjectId : Type :=
| Oid (hex : string).

(** The field values this module reads and writes: [None], [str], and the
    [ObjectId] the store keeps under ["_id"]. *)
Inductive value : Type :=
| VNone
| VStr (s : string)
| VOid (o : ObjectId).

#[global] Instance ObjectId_eq_dec : EqDecision ObjectId.
Proof. solve_decision. Defined.

#[global] Instance value_eq_dec : EqDecision value.
Proof. solve_decision. Defined.

(** A document is a [Dict[str, Any]]. *)
Abbreviation doc := (gmap string value).

Definition is_hex_digit (c : ascii) : bool :=
  let n := nat_of_ascii c in
  (((48 <=? n) && (n <=? 57)) || ((97 <=? n) && (n <=? 102))
  || ((65 <=? n) && (n <=? 70)))%nat.

Definition lower_hex (c : ascii) : ascii :=
  let n := nat_of_ascii c in
  if ((65 <=? n) && (n <=? 70))%nat then ascii_of_nat (n + 32) else c.

Fixpoint string_forallb (p : ascii -> bool) (s : string) : bool :=
  match s with
  | EmptyString => true
  | String c s' => p c && string_forallb p s'
  end.

Fixpoint string_map (f : ascii -> ascii) (s : string) : string :=
  match s with
  | EmptyString => EmptyString
  | String c s' => String (f c) (string_map f s')
  end.

(** ASCII whitespace, as [bytes.fromhex] skips it: tab, line feed, vertical
    tab, form feed, carriage return and space. *)
Definition is_space (c : ascii) : bool :=
  let n := nat_of_ascii c in
  (((9 <=? n) && (n <=? 13)) || (n =? 32))%nat.

(** [bytes.fromhex(s)], the bytes in the form [hexlify] prints them; [None]
    stands for [ValueError].  The scan reads a byte as two adjacent
    hexadecimal digits and skips whitespace before a byte, not inside one;
    [top] is the first digit of the byte being read.  A character beyond
    ASCII is neither a digit nor whitespace. *)
Fixpoint fromhex_scan (top : option ascii) (s : string) : option string :=
  match s with
  | EmptyString =>
      match top with
      | None => Some EmptyString
      | Some _ => None
      end
  | String c s' =>
      match top with
      | None =>
          if is_space c then fromhex_scan None s'
          else if is_hex_digit c then fromhex_scan (Some c) s'
          else None
      | Some t =>
          if is_hex_digit c then
            match fromhex_scan None s' with
            | Some bytes => Some (String (lower_hex t) (String (lower_hex c) bytes))
            | None => None
            end
          else None
      end
  end.

Definition fromhex (s : string) : option string := fromhex_scan None s.

(** [ObjectId(s)] for a [str] argument: [None] stands for [InvalidId], raised
    unless [s] has 24 characters and [bytes.fromhex] accepts them.  (On a
    string with a character beyond ASCII both the character count and the
    byte count lead to [InvalidId].) *)
Definition ObjectId_of_str (s : string) : option ObjectId :=
  if (String.length s =? 24)%nat then
    match fromhex s with
    | Some bytes => Some (Oid bytes)
    | None => None
    end
  else None.

(** [str(v)]. *)
Definition py_str (v : value) : string :=
  match v with
  | VNone => "None"
  | VStr s => s
  | VOid (Oid hex) => hex
  end.

(** Truth value of an object, as [if x] and [not x] take it. *)
Definition str_truthy (s : string) : bool :=
  negb (String.eqb s "").

Definition value_truthy (v : value) : bool :=
  match v with
  | VNone => false
  | VStr s => str_truthy s
  | VOid _ => true
  end.

Definition opt_str_truthy (o : option string) : bool :=
  match o with
  | None => false
  | Some s => str_truthy s
  end.

Definition dict_truthy (d : doc) : bool :=
  negb (bool_decide (d = ∅)).

(** An [Optional[str]] argument as the value written into a document. *)
Definition value_of_opt (o : option string) : value :=
  match o with
  | None => VNone
  | Some s => VStr s
  end.

(** [d.get(k)]: [None] when the key is missing. *)
Definition py_get (d : doc) (k : string) : value :=
  default VNone (d !! k).

(** [s.replace(c, by)] for a one-character pattern. *)
Fixpoint str_replace (c : ascii) (by_ : string) (s : string) : string :=
  match s with
  | EmptyString => EmptyString
  | String x s' =>
      if Ascii.eqb x c then by_ ++ str_replace c by_ s'
      else String x (str_replace c by_ s')
  end.

(** [c in s]. *)
Fixpoint has_char (c : ascii) (s : string) : bool :=
  match s with
  | EmptyString => false
  | String x s' => Ascii.eqb x c || has_char c s'
  end.

(** ** Comparison of values *)

(** The store compares across types by type first: null (or a missing field),
    then strings, then ObjectIds; strings compare byte-wise, which on UTF-8 is
    the code-point order Python uses. *)
Definition bson_rank (x : option value) : nat :=
  match x with
  | None | Some VNone => 0
  | Some (VStr _) => 1
  | Some (VOid _) => 2
  end.

Definition bson_leb (x y : option value) : bool :=
  match x, y with
  | Some (VStr a), Some (VStr b) => String.leb a b
  | Some (VOid (Oid a)), Some (VOid (Oid b)) => String.leb a b
  | _, _ => (bson_rank x <=? bson_rank y)%nat
  end.

(** ** Exceptions, results and the handler monad *)

Inductive driver_exn : Type :=
| DuplicateKeyError
| PyMongoError (what : string).

Inductive exn : Type :=
| HTTPException (status_code : nat) (detail : string)
| ValueError
| TypeError
| KeyError (key : string)
| InvalidId
| DriverError (e : driver_exn).

Inductive result (A : Type) : Type :=
| Ok (a : A)
| Raise (e : exn).
Arguments Ok {A} a.
Arguments Raise {A} e.

(** The two module-level handles imported from [..database]. *)
Inductive collection : Type :=
| Teachers
| Announcements.

Record world : Type := World {
  teachers_collection : list doc;
  announcements_collection : list doc
}.

Definition M (A : Type) : Type := world -> result A * world.

Definition ret {A} (a : A) : M A := fun w => (Ok a, w).

Definition raise {A} (e : exn) : M A := fun w => (Raise e, w).

Definition bind {A B} (m : M A) (k : A -> M B) : M B :=
  fun w =>
    match m w with
    | (Ok a, w') => k a w'
    | (Raise e, w') => (Raise e, w')
    end.

(** [try: body except E: handler], where [catches] says which exceptions [E]
    covers. *)
Definition try_except {A} (body : M A) (catches : exn -> bool) (handler : M A) : M A :=
  fun w =>
    match body w with
    | (Raise e, w') => if catches e then handler w' else (Raise e, w')
    | r => r
    end.

Definition of_option {A} (o : option A) (e : exn) : M A :=
  match o with
  | Some a => ret a
  | None => raise e
  end.

Declare Scope py_scope.
Delimit Scope py_scope with py.
Notation "x <- m ;; k" := (bind m (fun x => k))
  (at level 100, m at next level, right associativity) : py_scope.
Notation "m ;;; k" := (bind m (fun _ => k))
  (at level 100, right associativity) : py_scope.
Local Open Scope py_scope.

Definition is_ValueError (e : exn) : bool :=
  match e with ValueError => true | _ => false end.

(** [except Exception] covers every exception of the model. *)
Definition is_Exception (e : exn) : bool := true.

(** ** The document store *)

(** A filter is a dict from field names to conditions: a plain value (equality)
    or [{"$gte": v}]. *)
Inductive cond : Type :=
| Equals (v : value)
| Gte (v : value).

Abbreviation query := (list (string * cond)).

Definition cond_holds (c : cond) (x : option value) : bool :=
  match c with
  | Equals VNone => (bson_rank x =? 0)%nat
  | Equals v => bool_decide (x = Some v)
  | Gte v => (bson_rank x =? bson_rank (Some v))%nat && bson_leb (Some v) x
  end.

Definition matches (q : query) (d : doc) : bool :=
  forallb (fun kc => cond_holds (snd kc) (d !! fst kc)) q.

(** What a driver call does: it may raise, and it may change the store. *)
Definition drv (A : Type) : Type := world -> (driver_exn + A) * world.

(** Modelled from the spec: the two collection objects of [..database], which
    is not among the sources, as the Document Store the spec names: [find],
    [find_one], [insert_one], [update_one] and [delete_one] on a collection.
    [find] takes the cursor's [sort(key, direction)] when there is one;
    [insert_one] returns the caller's dict as the driver leaves it (with
    ["_id"] set) next to [inserted_id]; [update_one] takes the ["$set"]
    fields and returns [matched_count]; [delete_one] returns
    [deleted_count]. *)
Class Driver : Type := {
  find : collection -> query -> option (string * Z) -> drv (list doc);
  find_one : collection -> query -> drv (option doc);
  insert_one : collection -> doc -> drv (doc * value);
  update_one : collection -> query -> list (string * value) -> drv nat;
  delete_one : collection -> query -> drv nat
}.

(** A driver call inside a handler: a driver exception is a Python
    exception. *)
Definition call {A} (op : drv A) : M A :=
  fun w =>
    match op w with
    | (inl e, w') => (Raise (DriverError e), w')
    | (inr a, w') => (Ok a, w')
    end.

Definition get_collection (c : collection) (w : world) : list doc :=
  match c with
  | Teachers => teachers_collection w
  | Announcements => announcements_collection w
  end.

Definition set_collection (c : collection) (l : list doc) (w : world) : world :=
  match c with
  | Teachers => World l (announcements_collection w)
  | Announcements => World (teachers_collection w) l
  end.

(** The order of a cursor sorted on [key]: ascending for a positive direction,
    descending for a negative one. *)
Definition sort_order (key : string) (direction : Z) (a b : doc) : Prop :=
  if (direction <? 0)%Z then bson_leb (b !! key) (a !! key)
  else bson_leb (a !! key) (b !! key).

#[global] Instance sort_order_dec key direction a b :
  Decision (sort_order key direction a b).
Proof. unfold sort_order. destruct (direction <? 0)%Z; apply _. Defined.

Definition apply_sort (sort : option (string * Z)) (l : list doc) : list doc :=
  match sort with
  | None => l
  | Some (key, direction) => merge_sort (sort_order key direction) l
  end.

Definition apply_set (fields : list (string * value)) (d : doc) : doc :=
  foldl (fun acc kv => <[fst kv := snd kv]> acc) d fields.

Definition first_match (q : query) (l : list doc) : option (nat * doc) :=
  list_find (fun d => matches q d = true) l.

(** The reference store: collections are lists in insertion order (the
    natural order of a scan), every operation succeeds except an insert under
    an ["_id"] already in use, and [new_id] is the [ObjectId()] the driver
    would generate for a document inserted without one. *)
Section ReferenceStore.
Variable new_id : world -> ObjectId.

Definition store_find (c : collection) (q : query) (sort : option (string * Z))
  : drv (list doc) :=
  fun w => (inr (apply_sort sort (filter (fun d => matches q d = true) (get_collection c w))), w).

Definition store_find_one (c : collection) (q : query) : drv (option doc) :=
  fun w => (inr (snd <$> first_match q (get_collection c w)), w).

Definition store_insert_one (c : collection) (d : doc) : drv (doc * value) :=
  fun w =>
    let d' := match d !! "_id" with
              | Some _ => d
              | None => <["_id" := VOid (new_id w)]> d
              end in
    let inserted_id := py_get d' "_id" in
    match first_match [("_id", Equals inserted_id)] (get_collection c w) with
    | Some _ => (inl DuplicateKeyError, w)
    | None => (inr (d', inserted_id), set_collection c (get_collection c w ++ [d'])%list w)
    end.

Definition store_update_one (c : collection) (q : query) (fields : list (string * value))
  : drv nat :=
  fun w =>
    match first_match q (get_collection c w) with
    | Some (i, d) => (inr 1, set_collection c (<[i := apply_set fields d]> (get_collection c w)) w)
    | None => (inr 0, w)
    end.

Definition store_delete_one (c : collection) (q : query) : drv nat :=
  fun w =>
    match first_match q (get_collection c w) with
    | Some (i, _) => (inr 1, set_collection c (delete i (get_collection c w)) w)
    | None => (inr 0, w)
    end.

Definition reference_store : Driver := {|
  find := store_find;
  find_one := store_find_one;
  insert_one := store_insert_one;
  update_one := store_update_one;
  delete_one := store_delete_one
|}.
End ReferenceStore.

(** ** Date-times *)

Record datetime : Type := Datetime {
  year : Z; month : Z; day : Z;
  hour : Z; minute : Z; second : Z; microsecond : Z;
  utcoffset : option Z
}.

(** [datetime.fromisoformat]: [None] stands for [ValueError].  The accepted
    grammar differs between interpreter versions, so the handlers take it as
    an interface. *)
Class DatetimeLib : Type := {
  fromisoformat : string -> option datetime
}.

(** ** The handlers *)

(** [serialize_announcement]: "Convert MongoDB document to JSON-serializable
    format".  The dict is the caller's own copy (a cursor decodes a fresh dict
    per document), so the in-place edit is a function on it. *)
Definition serialize_announcement (announcement : doc) : doc :=
  if dict_truthy announcement then
    match announcement !! "_id" with
    | Some oid => delete "_id" (<["id" := VStr (py_str oid)]> announcement)
    | None => announcement
    end
  else announcement.

(** [del d[k]]. *)
Definition py_del (d : doc) (k : string) : M doc :=
  match d !! k with
  | Some _ => ret (delete k d)
  | None => raise (KeyError k)
  end.

(** [start_date > current_time] for a [str] right operand: only a [str] on
    the left is comparable. *)
Definition py_gt_str (x : value) (s : string) : M bool :=
  match x with
  | VStr a => ret (String.ltb s a)
  | _ => raise TypeError
  end.

(** What the framework sends for a handler's outcome. *)

Inductive json : Type :=
| JObject (d : doc)
| JArray (l : list doc)
| JText (s : string).

Record response : Type := Response {
  status : nat;
  content : json
}.

Definition error_response (status_code : nat) (detail : string) : response :=
  Response status_code (JObject {[ "detail" := VStr detail ]}).

(** The answer to an exception that is not an [HTTPException], and to a
    returned value the response model does not take. *)
Definition internal_error : response := Response 500 (JText "Internal Server Error").

(** A value JSON can carry: a [str] or [None], not an [ObjectId]. *)
Definition json_value (v : value) : Prop :=
  match v with
  | VOid _ => False
  | _ => True
  end.

#[global] Instance json_value_dec v : Decision (json_value v).
Proof. destruct v; apply _. Defined.

(** A [Dict[str, Any]] the framework can encode. *)
Definition json_doc (d : doc) : Prop :=
  map_Forall (fun _ v => json_value v) d.

Definition is_str (v : value) : Prop :=
  match v with
  | VStr _ => True
  | _ => False
  end.

#[global] Instance is_str_dec v : Decision (is_str v).
Proof. destruct v; apply _. Defined.

(** The response models of the routes, [None] where the returned value fails
    validation or encoding.  [List[Dict[str, Any]]]: *)
Definition encode_list (l : list doc) : option json :=
  if bool_decide (Forall json_doc l) then Some (JArray l) else None.

(** [Dict[str, Any]], for a handler that returns a dict or [None]: [None] is
    not a dict. *)
Definition encode_dict (o : option doc) : option json :=
  match o with
  | Some d => if bool_decide (json_doc d) then Some (JObject d) else None
  | None => None
  end.

(** [Dict[str, str]]. *)
Definition encode_str_dict (d : doc) : option json :=
  if bool_decide (map_Forall (fun _ v => is_str v) d) then Some (JObject d) else None.

Arguments encode_list : simpl never.
Arguments encode_dict : simpl never.
Arguments encode_str_dict : simpl never.

(** A returned value the response model takes goes out under the route's
    status code, an [HTTPException] under its own with its detail, anything
    else as 500. *)
Definition respond {A} (status_code : nat) (encode : A -> option json) (m : M A)
  : world -> response * world :=
  fun w =>
    match m w with
    | (Ok a, w') =>
        match encode a with
        | Some body => (Response status_code body, w')
        | None => (internal_error, w')
        end
    | (Raise (HTTPException s d), w') => (error_response s d, w')
    | (Raise _, w') => (internal_error, w')
    end.

Section Handlers.
Context {DT : DatetimeLib} {D : Driver}.

(** The body of the loop of [get_active_announcements], over the documents
    the cursor yields. *)
Fixpoint active_loop (current_time : string) (cursor : list doc) (announcements : list doc)
  : M (list doc) :=
  match cursor with
  | [] => ret announcements
  | announcement :: rest =>
      let start_date := py_get announcement "start_date" in
      skip <- (if value_truthy start_date then py_gt_str start_date current_time
               else ret false) ;;
      if (skip : bool) then active_loop current_time rest announcements
      else active_loop current_time rest
             (announcements ++ [serialize_announcement announcement])%list
  end.

(** [current_time] is [datetime.utcnow().isoformat()]. *)
Definition get_active_announcements (current_time : string) : M (list doc) :=
  let query := [("expiration_date", Gte (VStr current_time))] in
  cursor <- call (find Announcements query None) ;;
  active_loop current_time cursor [].

(** "Check teacher authentication": the block each of the four protected
    handlers opens with. *)
Definition check_teacher (teacher_username : option string) : M unit :=
  if negb (opt_str_truthy teacher_username) then
    raise (HTTPException 401 "Authentication required for this action")
  else
    teacher <- call (find_one Teachers [("_id", Equals (value_of_opt teacher_username))]) ;;
    match teacher with
    | Some t =>
        if negb (dict_truthy t) then raise (HTTPException 401 "Invalid teacher credentials")
        else ret tt
    | None => raise (HTTPException 401 "Invalid teacher credentials")
    end.

Definition get_all_announcements (teacher_username : option string) : M (list doc) :=
  check_teacher teacher_username ;;;
  cursor <- call (find Announcements [] (Some ("expiration_date", (-1)%Z))) ;;
  ret (foldl (fun (announcements : list doc) announcement =>
                (announcements ++ [serialize_announcement announcement])%list)
         [] cursor).

(** One [try: datetime.fromisoformat(s.replace('Z', '+00:00'))
    except ValueError: raise HTTPException(400, detail)]. *)
Definition parse_date (detail : string) (s : string) : M datetime :=
  try_except
    (of_option (fromisoformat (str_replace "Z" "+00:00" s)) ValueError)
    is_ValueError
    (raise (HTTPException 400 detail)).

(** "Validate dates": the block [create_announcement] and
    [update_announcement] share. *)
Definition validate_dates (expiration_date : string) (start_date : option string) : M unit :=
  parse_date "Invalid expiration_date format. Use ISO format." expiration_date ;;;
  match start_date with
  | Some s =>
      if str_truthy s then
        parse_date "Invalid start_date format. Use ISO format." s ;;; ret tt
      else ret tt
  | None => ret tt
  end.

(** [now] is the [datetime.utcnow().isoformat()] of the call. *)
Definition create_announcement (now : string) (message expiration_date : string)
    (start_date teacher_username : option string) : M doc :=
  check_teacher teacher_username ;;;
  validate_dates expiration_date start_date ;;;
  let announcement_doc : doc :=
    {[ "message" := VStr message;
       "expiration_date" := VStr expiration_date;
       "start_date" := value_of_opt start_date;
       "created_by" := value_of_opt teacher_username;
       "created_at" := VStr now ]} in
  result <- call (insert_one Announcements announcement_doc) ;;
  let announcement_doc := <["id" := VStr (py_str (snd result))]> (fst result) in
  py_del announcement_doc "_id".

Definition update_announcement (now : string) (announcement_id message expiration_date : string)
    (start_date teacher_username : option string) : M (option doc) :=
  check_teacher teacher_username ;;;
  validate_dates expiration_date start_date ;;;
  matched_count <-
    try_except
      (oid <- of_option (ObjectId_of_str announcement_id) InvalidId ;;
       call (update_one Announcements [("_id", Equals (VOid oid))]
               [ ("message", VStr message);
                 ("expiration_date", VStr expiration_date);
                 ("start_date", value_of_opt start_date);
                 ("updated_by", value_of_opt teacher_username);
                 ("updated_at", VStr now) ]))
      is_Exception
      (raise (HTTPException 400 "Invalid announcement ID")) ;;
  if (matched_count =? 0)%nat then raise (HTTPException 404 "Announcement not found")
  else
    oid <- of_option (ObjectId_of_str announcement_id) InvalidId ;;
    updated_announcement <- call (find_one Announcements [("_id", Equals (VOid oid))]) ;;
    ret (serialize_announcement <$> updated_announcement).

Definition delete_announcement (announcement_id : string) (teacher_username : option string)
  : M doc :=
  check_teacher teacher_username ;;;
  deleted_count <-
    try_except
      (oid <- of_option (ObjectId_of_str announcement_id) InvalidId ;;
       call (delete_one Announcements [("_id", Equals (VOid oid))]))
      is_Exception
      (raise (HTTPException 400 "Invalid announcement ID")) ;;
  if (deleted_count =? 0)%nat then raise (HTTPException 404 "Announcement not found")
  else ret {[ "message" := VStr "Announcement deleted successfully" ]}.

(** *** Routes *)

(** [@router.get("", response_model=List[Dict[str, Any]])] *)
Definition GET_active (current_time : string) :=
  respond 200 encode_list (get_active_announcements current_time).

(** [@router.get("/all", response_model=List[Dict[str, Any]])] *)
Definition GET_all (teacher_username : option string) :=
  respond 200 encode_list (get_all_announcements teacher_username).

(** [@router.post("", status_code=201)], returning [Dict[str, Any]] *)
Definition POST_create (now message expiration_date : string)
    (start_date teacher_username : option string) :=
  respond 201 (fun d => encode_dict (Some d))
    (create_announcement now message expiration_date start_date teacher_username).

(** [@router.put("/{announcement_id}")], returning [Dict[str, Any]] *)
Definition PUT_update (now announcement_id message expiration_date : string)
    (start_date teacher_username : option string) :=
  respond 200 encode_dict
    (update_announcement now announcement_id message expiration_date start_date
       teacher_username).

(** [@router.delete("/{announcement_id}")], returning [Dict[str, str]] *)
Definition DELETE_delete (announcement_id : string) (teacher_username : option string) :=
  respond 200 encode_str_dict (delete_announcement announcement_id teacher_username).
End Handlers.

(** ** A reference [fromisoformat] *)

(** The grammar documented for [datetime.fromisoformat] since Python 3.7,
    [YYYY-MM-DD[*HH[:MM[:SS[.fff[fff]]]][+HH:MM[:SS[.ffffff]]]]] with [*] any
    one character, followed by the range checks of the [datetime]
    constructor.  Later interpreters accept more strings than these. *)
Module Iso.
Local Open Scope Z_scope.

Definition digit_of (c : ascii) : option Z :=
  let n := Z.of_N (N_of_ascii c) in
  if (48 <=? n) && (n <=? 57) then Some (n - 48) else None.

(** Exactly [k] decimal digits. *)
Fixpoint take_digits (k : nat) (acc : Z) (s : string) : option (Z * string) :=
  match k with
  | O => Some (acc, s)
  | S k' =>
      match s with
      | String c s' =>
          match digit_of c with
          | Some d => take_digits k' (10 * acc + d) s'
          | None => None
          end
      | EmptyString => None
      end
  end.

Definition expect (c : ascii) (s : string) : option string :=
  match s with
  | String x s' => if Ascii.eqb x c then Some s' else None
  | EmptyString => None
  end.

Definition is_leap (y : Z) : bool :=
  (y mod 4 =? 0) && (negb (y mod 100 =? 0) || (y mod 400 =? 0)).

Definition days_in_month (y m : Z) : Z :=
  match m with
  | 1 | 3 | 5 | 7 | 8 | 10 | 12 => 31
  | 4 | 6 | 9 | 11 => 30
  | 2 => if is_leap y then 29 else 28
  | _ => 0
  end.

(** [YYYY-MM-DD] and what follows it. *)
Definition parse_date (s : string) : option (Z * Z * Z * string) :=
  '(y, s) ← take_digits 4 0 s;
  s ← expect "-" s;
  '(m, s) ← take_digits 2 0 s;
  s ← expect "-" s;
  '(d, s) ← take_digits 2 0 s;
  Some (y, m, d, s).

(** [.fff[fff]]: six digits, or three (milliseconds). *)
Definition parse_fraction (s : string) : option (Z * string) :=
  match take_digits 6 0 s with
  | Some r => Some r
  | None => '(ms, s) ← take_digits 3 0 s; Some (ms * 1000, s)
  end.

(** [HH[:MM[:SS[.fff[fff]]]]] and what follows it. *)
Definition parse_hh_mm_ss_ff (s : string) : option (Z * Z * Z * Z * string) :=
  '(h, s) ← take_digits 2 0 s;
  match expect ":" s with
  | None => Some (h, 0, 0, 0, s)
  | Some s =>
      '(mi, s) ← take_digits 2 0 s;
      match expect ":" s with
      | None => Some (h, mi, 0, 0, s)
      | Some s =>
          '(sec, s) ← take_digits 2 0 s;
          match expect "." s with
          | None => Some (h, mi, sec, 0, s)
          | Some s => '(us, s) ← parse_fraction s; Some (h, mi, sec, us, s)
          end
      end
  end.

(** [+HH:MM[:SS[.ffffff]]] up to the end of the string, as seconds east of
    UTC; an empty string is no offset. *)
Definition parse_offset (s : string) : option (option Z) :=
  match s with
  | EmptyString => Some None
  | String c s =>
      sign ← (if Ascii.eqb c "+" then Some 1
              else if Ascii.eqb c "-" then Some (-1) else None);
      '(h, s) ← take_digits 2 0 s;
      s ← expect ":" s;
      '(mi, s) ← take_digits 2 0 s;
      '(sec, s) ← match expect ":" s with
                  | None => Some (0, s)
                  | Some s =>
                      '(sec, s) ← take_digits 2 0 s;
                      match expect "." s with
                      | None => Some (sec, s)
                      | Some s => '(_, s) ← take_digits 6 0 s; Some (sec, s)
                      end
                  end;
      match s with
      | EmptyString =>
          let seconds := h * 3600 + mi * 60 + sec in
          if seconds <? 86400 then Some (Some (sign * seconds)) else None
      | _ => None
      end
  end.

Definition fromisoformat (s : string) : option datetime :=
  '(y, m, d, s) ← parse_date s;
  '(h, mi, sec, us, tz) ←
    match s with
    | EmptyString => Some (0, 0, 0, 0, None)
    | String _ t =>
        '(h, mi, sec, us, s) ← parse_hh_mm_ss_ff t;
        tz ← parse_offset s;
        Some (h, mi, sec, us, tz)
    end;
  if (1 <=? y) && (1 <=? m) && (m <=? 12) && (1 <=? d) && (d <=? days_in_month y m)
     && (h <? 24) && (mi <? 60) && (sec <? 60)
  then Some (Datetime y m d h mi sec us tz)
  else None.

End Iso.

#[global] Instance iso_datetime : DatetimeLib := {|
  fromisoformat := Iso.fromisoformat
|}.

(** The four protected operations as requests, and their routes. *)
Inductive protected_request : Type :=
| ListAll
| Create (now message expiration_date : string) (start_date : option string)
| Update (now announcement_id message expiration_date : string) (start_date : option string)
| Delete (announcement_id : string).

Definition serve `{DT : DatetimeLib} `{D : Driver} (r : protected_request)
    (teacher_username : option string) : world -> response * world :=
  match r with
  | ListAll => GET_all teacher_username
  | Create now message expiration_date start_date =>
      POST_create now message expiration_date start_date teacher_username
  | Update now announcement_id message expiration_date start_date =>
      PUT_update now announcement_id message expiration_date start_date teacher_username
  | Delete announcement_id => DELETE_delete announcement_id teacher_username
  end.

(** ** Vocabulary of the specification *)

(** The credential lookup of the authorization check. *)
Definition teacher_lookup `{D : Driver} (username : string) : drv (option doc) :=
  find_one Teachers [("_id", Equals (VStr username))].

(** [username] is non-empty and the credential store answers with a record. *)
Definition resolves `{D : Driver} (username : string) (w w' : world) : Prop :=
  username <> "" /\
  exists teacher, teacher_lookup username w = (inr (Some teacher), w') /\ teacher <> ∅.

(** [username] is non-empty and the credential store answers with nothing. *)
Definition unresolvable `{D : Driver} (username : string) (w w' : world) : Prop :=
  username <> "" /\ teacher_lookup username w = (inr None, w').

(** In the reference store: a teacher record is stored under the name. *)
Definition teacher_exists (username : string) (w : world) : Prop :=
  username <> "" /\
  exists teacher, teacher ∈ teachers_collection w /\ teacher !! "_id" = Some (VStr username).

(** The date check of create and update passes on [s]. *)
Definition parseable `{DT : DatetimeLib} (s : string) : Prop :=
  is_Some (fromisoformat (str_replace "Z" "+00:00" s)).

(** Both date arguments pass: [start_date] is checked only when it is given
    and non-empty. *)
Definition dates_valid `{DT : DatetimeLib} (expiration_date : string)
    (start_date : option string) : Prop :=
  parseable expiration_date /\
  forall s, start_date = Some s -> s <> "" -> parseable s.

(** No two stored documents share an ["_id"]: the store's own invariant. *)
Definition unique_ids (l : list doc) : Prop :=
  NoDup ((fun d : doc => d !! "_id") <$> l).

(** The data model's typing of [start_date]: absent, null or a string. *)
Definition start_date_typed (d : doc) : Prop :=
  match d !! "start_date" with
  | Some (VOid _) => False
  | _ => True
  end.

(** The data model's typing of a stored announcement: whatever it holds next
    to the internal identifier is a string or null. *)
Definition announcement_typed (d : doc) : Prop :=
  json_doc (delete "_id" d).

(** "Active", in the words of the specification: [expiration_date] is a
    string not before [now], and [start_date] is absent (or null) or a string
    not after [now], both in lexical order. *)
Definition not_expired (now : string) (d : doc) : Prop :=
  match d !! "expiration_date" with
  | Some (VStr e) => String.le now e
  | _ => False
  end.

Definition started (now : string) (d : doc) : Prop :=
  match d !! "start_date" with
  | None | Some VNone => True
  | Some (VStr s) => String.le s now
  | Some (VOid _) => False
  end.

Definition is_active (now : string) (d : doc) : Prop :=
  not_expired now d /\ started now d.

#[global] Instance not_expired_dec now d : Decision (not_expired now d).
Proof. unfold not_expired. destruct (d !! "expiration_date") as [[| |]|]; apply _. Defined.

#[global] Instance started_dec now d : Decision (started now d).
Proof. unfold started. destruct (d !! "start_date") as [[| |]|]; apply _. Defined.

#[global] Instance is_active_dec now d : Decision (is_active now d).
Proof. unfold is_active. apply _. Defined.

(** The announcements the API can reach: identifiers are unique and every
    [start_date] has the data model's type. *)
Definition store_ok (w : world) : Prop :=
  unique_ids (announcements_collection w)
  /\ Forall start_date_typed (announcements_collection w).

(** No stored announcement carries the identifier. *)
Definition no_record (o : ObjectId) (w : world) : Prop :=
  forall d, d ∈ announcements_collection w -> d !! "_id" <> Some (VOid o).

(** The filter [{"_id": ObjectId(announcement_id)}]. *)
Definition id_query (o : ObjectId) : query := [("_id", Equals (VOid o))].

(** The ["$set"] document of an update. *)
Definition update_fields (now message expiration_date : string) (start_date : option string)
    (username : string) : list (string * value) :=
  [ ("message", VStr message);
    ("expiration_date", VStr expiration_date);
    ("start_date", value_of_opt start_date);
    ("updated_by", VStr username);
    ("updated_at", VStr now) ].

(** The document a create call builds. *)
Definition new_fields (now message expiration_date : string) (start_date : option string)
    (username : string) : doc :=
  {[ "message" := VStr message;
     "expiration_date" := VStr expiration_date;
     "start_date" := value_of_opt start_date;
     "created_by" := VStr username;
     "created_at" := VStr now ]}.

(** ** A small school *)

Definition oid_welcome : ObjectId := Oid "65a1b2c3d4e5f60718293a4b".
Definition oid_past : ObjectId := Oid "65a1b2c3d4e5f60718293a4c".
Definition oid_next_year : ObjectId := Oid "65a1b2c3d4e5f60718293a4d".
Definition oid_generated : ObjectId := Oid "65a1b2c3d4e5f60718293a4e".

Definition teacher_rodriguez : doc :=
  {[ "_id" := VStr "mrodriguez"; "display_name" := VStr "Ms. Rodriguez" ]}.

Definition announcement_welcome : doc :=
  {[ "_id" := VOid oid_welcome;
     "message" := VStr "Welcome back";
     "expiration_date" := VStr "2025-12-31T23:59:59";
     "start_date" := VStr "2025-01-01T00:00:00";
     "created_by" := VStr "mrodriguez";
     "created_at" := VStr "2025-01-01T08:00:00" ]}.

Definition announcement_past : doc :=
  {[ "_id" := VOid oid_past;
     "message" := VStr "Winter concert";
     "expiration_date" := VStr "2024-12-20T18:00:00";
     "start_date" := VNone ]}.

Definition announcement_next_year : doc :=
  {[ "_id" := VOid oid_next_year;
     "message" := VStr "Enrolment opens";
     "expiration_date" := VStr "2026-12-31T23:59:59";
     "start_date" := VStr "2026-01-01T00:00:00" ]}.

Definition school : world :=
  World [teacher_rodriguez]
        [announcement_welcome; announcement_past; announcement_next_year].

Definition june : string := "2025-06-01T12:00:00.000000".

Definition next_oid (w : world) : ObjectId := oid_generated.

(** A driver whose writes fail: reads go to the reference store, every
    insert, update and delete raises. *)
Definition read_only_store : Driver := {|
  find := store_find;
  find_one := store_find_one;
  insert_one := fun _ _ w => (inl (PyMongoError "NotWritablePrimary"), w);
  update_one := fun _ _ _ w => (inl (PyMongoError "NotWritablePrimary"), w);
  delete_one := fun _ _ w => (inl (PyMongoError "NotWritablePrimary"), w)
|}.

(** The record a create call stores. *)
Definition stored_record (new_id : world -> ObjectId) (now message expiration_date : string) (start_date : option string)
    (u : string) (w : world) : doc :=
  <["_id" := VOid (new_id w)]> (new_fields now message expiration_date start_date u).

(** ** Stores that fail, and a mistyped record *)

Inductive operation : Type :=
| OpFind
| OpFindOne
| OpInsertOne
| OpUpdateOne
| OpDeleteOne.

(** The reference store behind a connection that drops the operations
    [fails] selects. *)
Definition failing_store (new_id : world -> ObjectId)
    (fails : collection -> operation -> bool) : Driver := {|
  find := fun c q sort w =>
    if fails c OpFind then (inl (PyMongoError "AutoReconnect"), w)
    else store_find c q sort w;
  find_one := fun c q w =>
    if fails c OpFindOne then (inl (PyMongoError "AutoReconnect"), w)
    else store_find_one c q w;
  insert_one := fun c d w =>
    if fails c OpInsertOne then (inl (PyMongoError "AutoReconnect"), w)
    else store_insert_one new_id c d w;
  update_one := fun c q fields w =>
    if fails c OpUpdateOne then (inl (PyMongoError "AutoReconnect"), w)
    else store_update_one c q fields w;
  delete_one := fun c q w =>
    if fails c OpDeleteOne then (inl (PyMongoError "AutoReconnect"), w)
    else store_delete_one c q w
|}.

Definition offline_store : Driver := failing_store next_oid (fun _ _ => true).

Definition reread_fails_store : Driver :=
  failing_store next_oid
    (fun c op => match c, op with Announcements, OpFindOne => true | _, _ => false end).

(** The reference store next to a second client that removes the record
    between the update and the re-read. *)
Definition racing_store : Driver := {|
  find := store_find;
  find_one := fun c q w =>
    match c with
    | Teachers => store_find_one c q w
    | Announcements => (inr None, w)
    end;
  insert_one := store_insert_one next_oid;
  update_one := store_update_one;
  delete_one := store_delete_one
|}.

Definition announcement_mistyped : doc :=
  {[ "_id" := VOid oid_past;
     "message" := VStr "Imported";
     "expiration_date" := VStr "2026-06-30T00:00:00";
     "start_date" := VOid oid_past ]}.

Definition school_mistyped : world :=
  World [teacher_rodriguez] [announcement_welcome; announcement_mistyped].

(** A record another program wrote, with a reference where the data model
    has a user name. *)
Definition announcement_foreign : doc :=
  {[ "_id" := VOid oid_past;
     "message" := VStr "Imported";
     "expiration_date" := VStr "2026-06-30T00:00:00";
     "created_by" := VOid oid_next_year ]}.

Definition school_foreign : world :=
  World [teacher_rodriguez] [announcement_welcome; announcement_foreign].

Definition school_after_update : world :=
  World (teachers_collection school)
    (<[0 := apply_set (update_fields june "Hello" "2099-01-01T00:00:00Z"
                         (Some "2098-01-01") "mrodriguez") announcement_welcome]>
       (announcements_collection school)).

(** ** Basic facts *)

Lemma str_truthy_true s : str_truthy s = true <-> s <> "".
Proof.
  unfold str_truthy. destruct (String.eqb_spec s ""); simpl; split; congruence.
Qed.

Lemma str_truthy_false s : str_truthy s = false <-> s = "".
Proof.
  unfold str_truthy. destruct (String.eqb_spec s ""); simpl; split; congruence.
Qed.

Lemma dict_truthy_true (d : doc) : dict_truthy d = true <-> d <> ∅.
Proof.
  unfold dict_truthy. case_bool_decide; simpl; split; congruence.
Qed.

Lemma string_ltb_leb a b : String.ltb a b = negb (String.leb b a).
Proof.
  unfold String.ltb, String.leb. rewrite (String.compare_antisym a b).
  destruct (String.compare b a); reflexivity.
Qed.

Lemma string_le_leb a b : String.le a b <-> String.leb a b = true.
Proof. unfold String.le. apply Is_true_true. Qed.

(** ** What the response models take *)

Lemma encode_list_Some l : Forall json_doc l -> encode_list l = Some (JArray l).
Proof. intros H. unfold encode_list. by rewrite bool_decide_eq_true_2. Qed.

Lemma encode_list_None l : ~ Forall json_doc l -> encode_list l = None.
Proof. intros H. unfold encode_list. by rewrite bool_decide_eq_false_2. Qed.

Lemma encode_list_inv l j : encode_list l = Some j -> j = JArray l /\ Forall json_doc l.
Proof. unfold encode_list. case_bool_decide; [|done]. by intros [= <-]. Qed.

Lemma encode_dict_Some d : json_doc d -> encode_dict (Some d) = Some (JObject d).
Proof. intros H. unfold encode_dict. by rewrite bool_decide_eq_true_2. Qed.

Lemma encode_dict_not_json d : ~ json_doc d -> encode_dict (Some d) = None.
Proof. intros H. unfold encode_dict. by rewrite bool_decide_eq_false_2. Qed.

Lemma encode_dict_missing : encode_dict None = None.
Proof. reflexivity. Qed.

Lemma encode_dict_inv o j :
  encode_dict o = Some j -> exists d, o = Some d /\ j = JObject d /\ json_doc d.
Proof.
  unfold encode_dict. destruct o as [d|]; [|done].
  case_bool_decide; [|done]. intros [= <-]. eauto.
Qed.

Lemma encode_str_dict_singleton k s :
  encode_str_dict {[ k := VStr s ]} = Some (JObject {[ k := VStr s ]}).
Proof.
  unfold encode_str_dict. rewrite bool_decide_eq_true_2; [done|].
  by apply map_Forall_singleton.
Qed.

Lemma json_doc_insert k v (d : doc) : json_value v -> json_doc d -> json_doc (<[k := v]> d).
Proof. intros Hv Hd. by apply map_Forall_insert_2. Qed.

Lemma json_doc_delete k (d : doc) : json_doc d -> json_doc (delete k d).
Proof. apply map_Forall_delete. Qed.

Lemma json_doc_lookup (d : doc) k v : json_doc d -> d !! k = Some v -> json_value v.
Proof. intros Hd Hk. exact (Hd k v Hk). Qed.

Lemma typed_start_date (d : doc) : announcement_typed d -> start_date_typed d.
Proof.
  intros Hd. unfold start_date_typed.
  destruct (d !! "start_date") as [[| |o]|] eqn:Hs; try done.
  apply (json_doc_lookup (delete "_id" d) "start_date" (VOid o) Hd).
  by rewrite lookup_delete_ne.
Qed.

(** A record of the data model's type serializes to a document the response
    models take. *)
Lemma typed_serializes (d : doc) : announcement_typed d -> json_doc (serialize_announcement d).
Proof.
  intros Hd. unfold serialize_announcement.
  destruct (d !! "_id") as [oid|] eqn:Hid.
  - assert (dict_truthy d = true) as ->.
    { apply dict_truthy_true. intros ->. by rewrite lookup_empty in Hid. }
    rewrite delete_insert_ne by done. by apply json_doc_insert.
  - unfold announcement_typed in Hd. rewrite delete_id in Hd by done.
    by destruct (dict_truthy d).
Qed.

#[global] Opaque encode_list encode_dict encode_str_dict.

(** ** The handlers on the small school *)

Lemma school_teacher : teacher_exists "mrodriguez" school.
Proof.
  split; [discriminate|]. exists teacher_rodriguez. split; [apply list_elem_of_here|reflexivity].
Qed.

Lemma school_unique_ids : unique_ids (announcements_collection school).
Proof. unfold unique_ids. apply (bool_decide_unpack _). vm_compute. exact I. Qed.

Lemma school_typed : Forall start_date_typed (announcements_collection school).
Proof. repeat constructor. Qed.

Lemma school_announcements_typed :
  Forall announcement_typed (announcements_collection school).
Proof. apply (bool_decide_unpack _). vm_compute. exact I. Qed.


Lemma school_no_generated : no_record oid_generated school.
Proof.
  intros d Hd. simpl in Hd.
  repeat (apply elem_of_cons in Hd as [->|Hd]; [vm_compute; discriminate|]).
  by apply elem_of_nil in Hd.
Qed.

Lemma dates_2099 : dates_valid "2099-01-01T00:00:00Z" (Some "2098-01-01").
Proof.
  split; [vm_compute; eauto|]. intros s [= <-] _. vm_compute. eauto.
Qed.

Lemma not_a_date : ~ parseable "not-a-date".
Proof. intros [dt Hdt]. vm_compute in Hdt. discriminate Hdt. Qed.

Example active_in_june :
  GET_active (D := reference_store next_oid) june school
  = (Response 200 (JArray [
       {[ "id" := VStr "65a1b2c3d4e5f60718293a4b";
          "message" := VStr "Welcome back";
          "expiration_date" := VStr "2025-12-31T23:59:59";
          "start_date" := VStr "2025-01-01T00:00:00";
          "created_by" := VStr "mrodriguez";
          "created_at" := VStr "2025-01-01T08:00:00" ]} ]), school).
Proof. vm_compute. reflexivity. Qed.

Example all_for_rodriguez :
  GET_all (D := reference_store next_oid) (Some "mrodriguez") school
  = (Response 200 (JArray (serialize_announcement <$>
       [announcement_next_year; announcement_welcome; announcement_past])), school).
Proof. vm_compute. reflexivity. Qed.

Example create_not_a_date :
  fst (POST_create (D := reference_store next_oid) june "Hello" "not-a-date" None
         (Some "mrodriguez") school)
  = error_response 400 "Invalid expiration_date format. Use ISO format.".
Proof. vm_compute. reflexivity. Qed.

Example create_2099 :
  fst (POST_create (D := reference_store next_oid) june "Hello" "2099-01-01T00:00:00Z" None
         (Some "mrodriguez") school)
  = Response 201 (JObject
      {[ "id" := VStr "65a1b2c3d4e5f60718293a4e";
         "message" := VStr "Hello";
         "expiration_date" := VStr "2099-01-01T00:00:00Z";
         "start_date" := VNone;
         "created_by" := VStr "mrodriguez";
         "created_at" := VStr june ]}).
Proof. vm_compute. reflexivity. Qed.

Example update_malformed_id :
  fst (PUT_update (D := reference_store next_oid) june "42" "Hello" "2099-01-01T00:00:00Z"
         None (Some "mrodriguez") school)
  = error_response 400 "Invalid announcement ID".
Proof. vm_compute. reflexivity. Qed.

Example update_unknown_id :
  fst (PUT_update (D := reference_store next_oid) june "65a1b2c3d4e5f60718293a4e" "Hello"
         "2099-01-01T00:00:00Z" None (Some "mrodriguez") school)
  = error_response 404 "Announcement not found".
Proof. vm_compute. reflexivity. Qed.

(** 24 characters that end in whitespace are an identifier to the driver,
    one of fewer bytes that no record carries. *)
Example update_whitespace_id :
  fst (PUT_update (D := reference_store next_oid) june "65a1b2c3d4e5f60718293a  " "Hello"
         "2099-01-01T00:00:00Z" None (Some "mrodriguez") school)
  = error_response 404 "Announcement not found".
Proof. vm_compute. reflexivity. Qed.

Example delete_whitespace_id :
  fst (DELETE_delete (D := reference_store next_oid) "65a1b2c3d4e5f60718293a  "
         (Some "mrodriguez") school)
  = error_response 404 "Announcement not found".
Proof. vm_compute. reflexivity. Qed.

Example write_failure_is_400 :
  fst (DELETE_delete (D := read_only_store) "65a1b2c3d4e5f60718293a4b"
         (Some "mrodriguez") school)
  = error_response 400 "Invalid announcement ID".
Proof. vm_compute. reflexivity. Qed.

Example insert_failure_is_500 :
  status (fst (POST_create (D := read_only_store) june "Hello" "2099-01-01T00:00:00Z" None
         (Some "mrodriguez") school)) = 500.
Proof. vm_compute. reflexivity. Qed.

(** ** Control flow, for every driver and every [fromisoformat] *)

Ltac run :=
  unfold bind, ret, raise, call, try_except, of_option; simpl;
  rewrite ?encode_str_dict_singleton.

Section ControlFlow.
Context {DT : DatetimeLib} {D : Driver}.

Lemma check_teacher_absent w :
  check_teacher None w
  = (Raise (HTTPException 401 "Authentication required for this action"), w).
Proof. reflexivity. Qed.

Lemma check_teacher_empty w :
  check_teacher (Some "") w
  = (Raise (HTTPException 401 "Authentication required for this action"), w).
Proof. reflexivity. Qed.

Lemma check_teacher_resolves u w w' :
  resolves u w w' -> check_teacher (Some u) w = (Ok tt, w').
Proof.
  intros [Hu (t & Hfind & Ht)]. unfold check_teacher, teacher_lookup in *. simpl.
  apply str_truthy_true in Hu. rewrite Hu. run. rewrite Hfind.
  apply dict_truthy_true in Ht. rewrite Ht. reflexivity.
Qed.

Lemma check_teacher_unresolvable u w w' :
  unresolvable u w w' ->
  check_teacher (Some u) w = (Raise (HTTPException 401 "Invalid teacher credentials"), w').
Proof.
  intros [Hu Hfind]. unfold check_teacher, teacher_lookup in *. simpl.
  apply str_truthy_true in Hu. rewrite Hu. run. rewrite Hfind. reflexivity.
Qed.

Lemma parse_date_ok detail s w :
  parseable s -> exists dt, parse_date detail s w = (Ok dt, w).
Proof.
  intros [dt Hdt]. exists dt. unfold parse_date. run. rewrite Hdt. reflexivity.
Qed.

Lemma parse_date_bad detail s w :
  ~ parseable s -> parse_date detail s w = (Raise (HTTPException 400 detail), w).
Proof.
  intros Hs. unfold parse_date, parseable in *. run.
  destruct (fromisoformat _) as [dt|]; [exfalso; eauto | reflexivity].
Qed.

Lemma validate_dates_ok expiration_date start_date w :
  dates_valid expiration_date start_date ->
  validate_dates expiration_date start_date w = (Ok tt, w).
Proof.
  intros [Hexp Hstart]. unfold validate_dates, bind.
  destruct (parse_date_ok "Invalid expiration_date format. Use ISO format." _ w Hexp)
    as [dt ->].
  destruct start_date as [s|]; [|reflexivity].
  destruct (str_truthy s) eqn:Hs; [|reflexivity].
  apply str_truthy_true in Hs.
  destruct (parse_date_ok "Invalid start_date format. Use ISO format." _ w (Hstart s eq_refl Hs))
    as [dt' ->].
  reflexivity.
Qed.

Lemma validate_dates_bad_expiration expiration_date start_date w :
  ~ parseable expiration_date ->
  validate_dates expiration_date start_date w
  = (Raise (HTTPException 400 "Invalid expiration_date format. Use ISO format."), w).
Proof.
  intros Hexp. unfold validate_dates, bind. rewrite parse_date_bad by done. reflexivity.
Qed.

Lemma validate_dates_bad_start expiration_date s w :
  parseable expiration_date -> s <> "" -> ~ parseable s ->
  validate_dates expiration_date (Some s) w
  = (Raise (HTTPException 400 "Invalid start_date format. Use ISO format."), w).
Proof.
  intros Hexp Hs Hbad. unfold validate_dates, bind.
  destruct (parse_date_ok "Invalid expiration_date format. Use ISO format." _ w Hexp)
    as [dt ->].
  apply str_truthy_true in Hs. rewrite Hs. rewrite parse_date_bad by done. reflexivity.
Qed.

(** The date check leaves the store alone and fails only with a 400. *)
Lemma validate_dates_outcome expiration_date start_date w :
  exists r, validate_dates expiration_date start_date w = (r, w) /\
    (r = Ok tt \/ exists detail, r = Raise (HTTPException 400 detail)).
Proof.
  destruct (decide (parseable expiration_date)) as [Hexp|Hexp].
  - destruct start_date as [s|].
    + destruct (decide (s = "")) as [->|Hs];
        [|destruct (decide (parseable s)) as [Hok|Hbad]].
      * eexists; split; [apply validate_dates_ok|eauto].
        split; [done|]. intros ? [= <-] ?; done.
      * eexists; split; [apply validate_dates_ok|eauto].
        split; [done|]. intros ? [= <-] ?; done.
      * eexists; split; [apply validate_dates_bad_start; done|eauto].
    + eexists; split; [apply validate_dates_ok|eauto].
      split; [done|]. intros ? [=].
  - eexists; split; [apply validate_dates_bad_expiration; done|eauto].
Qed.

End ControlFlow.

(** Case analysis on the innermost scrutinee of the goal, repeatedly. *)
Ltac split_match :=
  repeat (rewrite ?encode_str_dict_singleton;
          match goal with
          | |- context [match ?x with _ => _ end] =>
              lazymatch x with
              | context [match _ with _ => _ end] => fail
              | _ => destruct x eqn:?; simpl in *
              end
          end).

Lemma error_response_inj s d s' d' :
  error_response s d = error_response s' d' -> s = s' /\ d = d'.
Proof.
  intros H. split; [exact (f_equal status H)|].
  apply (f_equal (fun r => match content r with
                           | JObject m => m !! "detail"
                           | _ => None
                           end)) in H.
  unfold error_response in H. cbn [content] in H.
  rewrite !lookup_singleton_eq in H. congruence.
Qed.

(** The four ways an answer comes about. *)
Lemma respond_inv {A} code (enc : A -> option json) (m : M A) w r w' :
  respond code enc m w = (r, w') ->
  (exists a body, m w = (Ok a, w') /\ enc a = Some body /\ r = Response code body)
  \/ (exists a, m w = (Ok a, w') /\ enc a = None
                /\ r = Response 500 (JText "Internal Server Error"))
  \/ (exists s d, m w = (Raise (HTTPException s d), w')
                  /\ r = Response s (JObject {[ "detail" := VStr d ]}))
  \/ (exists e, m w = (Raise e, w') /\ (forall s d, e <> HTTPException s d)
                /\ r = Response 500 (JText "Internal Server Error")).
Proof.
  unfold respond. destruct (m w) as [[a|e] w1].
  - destruct (enc a) as [body|] eqn:Henc; intros [= <- <-]; [left|right; left]; eauto.
  - destruct e; intros [= <- <-];
      try (right; right; right; eexists; split; [reflexivity|split; [discriminate|reflexivity]]).
    right; right; left. eauto.
Qed.

(** C10: for each of the four protected operations, an empty
    [teacher_username] is treated exactly like a missing one: the answer is
    401 "Authentication required for this action", whatever the driver is
    (so the credential store is not consulted) and with the store unchanged;
    never "Invalid teacher credentials". *)
Theorem empty_username_is_absent `{DT : DatetimeLib} (D D' : Driver)
    (r : protected_request) (w : world) :
  serve (D := D) r (Some "") w
  = (error_response 401 "Authentication required for this action", w)
  /\ serve (D := D) r (Some "") w = serve (D := D') r None w
  /\ fst (serve (D := D) r (Some "") w) <> error_response 401 "Invalid teacher credentials".
Proof.
  destruct r; repeat split; try reflexivity; simpl;
    intros [_ [=]]%error_response_inj.
Qed.

Ltac unfold_routes :=
  unfold GET_active, GET_all, POST_create, PUT_update, DELETE_delete, respond,
    get_active_announcements, get_all_announcements, create_announcement,
    update_announcement, delete_announcement.

Section Outcomes.
Context {DT : DatetimeLib} {D : Driver}.

Lemma create_bad_dates now message expiration_date start_date u w w' detail :
  resolves u w w' ->
  validate_dates expiration_date start_date w' = (Raise (HTTPException 400 detail), w') ->
  POST_create now message expiration_date start_date (Some u) w
  = (error_response 400 detail, w').
Proof.
  intros Hu%check_teacher_resolves Hv. unfold_routes. unfold bind.
  rewrite Hu, Hv. reflexivity.
Qed.

Lemma update_bad_dates now announcement_id message expiration_date start_date u w w' detail :
  resolves u w w' ->
  validate_dates expiration_date start_date w' = (Raise (HTTPException 400 detail), w') ->
  PUT_update now announcement_id message expiration_date start_date (Some u) w
  = (error_response 400 detail, w').
Proof.
  intros Hu%check_teacher_resolves Hv. unfold_routes. unfold bind.
  rewrite Hu, Hv. reflexivity.
Qed.

Lemma create_good_dates now message expiration_date start_date u w w' :
  resolves u w w' ->
  validate_dates expiration_date start_date w' = (Ok tt, w') ->
  let r := fst (POST_create now message expiration_date start_date (Some u) w) in
  status r = 201 \/ status r = 500.
Proof.
  intros Hu%check_teacher_resolves Hv. unfold_routes. unfold bind.
  rewrite Hu, Hv. run. unfold py_del. split_match; simplify_eq; simpl; auto.
  all: unfold ret, raise in *; simplify_eq; simpl; auto.
Qed.

Lemma update_good_dates now announcement_id message expiration_date start_date u w w' :
  resolves u w w' ->
  validate_dates expiration_date start_date w' = (Ok tt, w') ->
  let r := fst (PUT_update now announcement_id message expiration_date start_date (Some u) w) in
  status r = 200 \/ status r = 500
  \/ r = error_response 400 "Invalid announcement ID"
  \/ r = error_response 404 "Announcement not found".
Proof.
  intros Hu%check_teacher_resolves Hv. unfold_routes. unfold bind.
  rewrite Hu, Hv. run. split_match; simplify_eq; simpl; auto.
Qed.

Lemma list_all_status u w w' :
  resolves u w w' ->
  let r := fst (GET_all (Some u) w) in status r = 200 \/ status r = 500.
Proof.
  intros Hu%check_teacher_resolves. unfold_routes. unfold bind.
  rewrite Hu. run. split_match; simplify_eq; simpl; auto.
Qed.

Lemma delete_status announcement_id u w w' :
  resolves u w w' ->
  let r := fst (DELETE_delete announcement_id (Some u) w) in
  status r = 200 \/ status r = 500 \/ status r = 400 \/ status r = 404.
Proof.
  intros Hu%check_teacher_resolves. unfold_routes. unfold bind.
  rewrite Hu. run. split_match; simplify_eq; simpl; auto.
Qed.
End Outcomes.

(** C2: for each of the four protected operations (list-all, create, update,
    delete): without [teacher_username] the answer is 401 "Authentication
    required for this action"; with a non-empty name the credential store
    does not know it is 401 "Invalid teacher credentials"; with a name that
    resolves to a teacher record the answer is not a 401. *)
Theorem authentication_gate `{DT : DatetimeLib} `{D : Driver}
    (r : protected_request) (w : world) :
  serve r None w = (error_response 401 "Authentication required for this action", w)
  /\ (forall u w', unresolvable u w w' ->
        serve r (Some u) w = (error_response 401 "Invalid teacher credentials", w'))
  /\ (forall u w', resolves u w w' -> status (fst (serve r (Some u) w)) <> 401).
Proof.
  split; [destruct r; reflexivity|]. split.
  - intros u w' Hu. apply check_teacher_unresolvable in Hu.
    destruct r; cbn [serve]; unfold_routes; unfold bind; rewrite Hu; reflexivity.
  - intros u w' Hu. destruct r; cbn [serve].
    + destruct (list_all_status u w w' Hu) as [-> | ->]; discriminate.
    + destruct (validate_dates_outcome expiration_date start_date w')
        as (res & Hv & [->|[detail ->]]).
      * destruct (create_good_dates now message _ _ _ _ _ Hu Hv) as [-> | ->];
          discriminate.
      * rewrite (create_bad_dates now message _ _ _ _ _ _ Hu Hv). discriminate.
    + destruct (validate_dates_outcome expiration_date start_date w')
        as (res & Hv & [->|[detail ->]]).
      * destruct (update_good_dates now announcement_id message _ _ _ _ _ Hu Hv)
          as [-> | [-> | [-> | ->]]]; discriminate.
      * rewrite (update_bad_dates now announcement_id message _ _ _ _ _ _ Hu Hv).
        discriminate.
    + destruct (delete_status announcement_id u w w' Hu) as [-> | [-> | [-> | ->]]];
        discriminate.
Qed.

(** C2 on the small school: a known and an unknown name. *)
Lemma authentication_gate_witness :
  resolves (D := reference_store next_oid) "mrodriguez" school school
  /\ unresolvable (D := reference_store next_oid) "nobody" school school
  /\ serve (D := reference_store next_oid) ListAll (Some "nobody") school
     = (error_response 401 "Invalid teacher credentials", school)
  /\ status (fst (serve (D := reference_store next_oid) (Delete "42") (Some "mrodriguez")
                    school)) <> 401.
Proof.
  assert (Hr : resolves (D := reference_store next_oid) "mrodriguez" school school).
  { split; [discriminate|]. exists teacher_rodriguez. split; [reflexivity|].
    apply dict_truthy_true. vm_compute. reflexivity. }
  assert (Hn : unresolvable (D := reference_store next_oid) "nobody" school school).
  { split; [discriminate|]. vm_compute. reflexivity. }
  split; [exact Hr|]. split; [exact Hn|]. split.
  - exact (proj1 (proj2 (authentication_gate (D := reference_store next_oid) ListAll school))
             "nobody" school Hn).
  - exact (proj2 (proj2 (authentication_gate (D := reference_store next_oid) (Delete "42")
                           school)) "mrodriguez" school Hr).
Defined.

Section DateCheck.
Context {DT : DatetimeLib} {D : Driver}.
Variables (now announcement_id message expiration_date : string) (start_date : option string).
Variables (u : string) (w w' : world) (route : world -> response * world).
Hypothesis Hu : resolves u w w'.
Hypothesis Hroute :
  route = POST_create now message expiration_date start_date (Some u) \/
  route = PUT_update now announcement_id message expiration_date start_date (Some u).

Lemma route_bad_dates detail :
  validate_dates expiration_date start_date w' = (Raise (HTTPException 400 detail), w') ->
  fst (route w) = error_response 400 detail.
Proof.
  intros Hv. destruct Hroute as [-> | ->].
  - erewrite create_bad_dates; eauto.
  - erewrite update_bad_dates; eauto.
Qed.

Lemma route_good_dates detail :
  dates_valid expiration_date start_date -> detail <> "Invalid announcement ID" ->
  fst (route w) <> error_response 400 detail.
Proof.
  intros Hv Hd Heq. destruct Hroute as [-> | ->].
  - destruct (create_good_dates now message _ _ _ _ _ Hu (validate_dates_ok _ _ w' Hv))
      as [H|H];
      rewrite Heq in H; discriminate H.
  - destruct (update_good_dates now announcement_id message _ _ _ _ _ Hu
                (validate_dates_ok _ _ w' Hv))
      as [H|[H|[H|H]]]; rewrite Heq in H; try discriminate H.
    apply error_response_inj in H as [_ H]. congruence.
Qed.
End DateCheck.

(** C3 (amended): on an authenticated call to create, and identically to
    update, the answer is 400 "Invalid expiration_date format. Use ISO
    format." if and only if [expiration_date] does not pass
    [fromisoformat] after every [Z] is replaced by [+00:00]; and when
    [start_date] is given and non-empty, the answer is 400 "Invalid
    start_date format. Use ISO format." if and only if [expiration_date]
    passes and [start_date] does not. *)
Theorem date_validation `{DT : DatetimeLib} `{D : Driver}
    (now announcement_id message expiration_date : string) (start_date : option string)
    (u : string) (w w' : world) (route : world -> response * world) :
  resolves u w w' ->
  route = POST_create now message expiration_date start_date (Some u) \/
  route = PUT_update now announcement_id message expiration_date start_date (Some u) ->
  (fst (route w) = error_response 400 "Invalid expiration_date format. Use ISO format."
   <-> ~ parseable expiration_date)
  /\ (forall s, start_date = Some s -> s <> "" ->
      (fst (route w) = error_response 400 "Invalid start_date format. Use ISO format."
       <-> parseable expiration_date /\ ~ parseable s)).
Proof.
  intros Hu Hroute.
  pose proof (fun detail => route_good_dates _ _ _ _ _ _ _ _ _ Hu Hroute detail) as Hgood.
  pose proof (fun detail => route_bad_dates _ _ _ _ _ _ _ _ _ Hu Hroute detail) as Hbad.
  destruct (decide (parseable expiration_date)) as [Hexp|Hexp].
  - split.
    + split; [|done]. intros Heq. exfalso.
      destruct start_date as [s|].
      * destruct (decide (s <> "" /\ ~ parseable s)) as [[Hs Hs']|Hok].
        -- rewrite (Hbad _ (validate_dates_bad_start _ _ _ Hexp Hs Hs')) in Heq.
           apply error_response_inj in Heq as [_ Heq]. discriminate Heq.
        -- revert Heq. apply Hgood; [|done].
           split; [done|]. intros ? [= <-] ?.
           destruct (decide (parseable s)); [done|]. exfalso. apply Hok. done.
      * revert Heq. apply Hgood; [|done].
        split; [done|]. intros ? [=].
    + intros s -> Hs. destruct (decide (parseable s)) as [Hs'|Hs'].
      * split; [|intros [_ ?]; done]. intros Heq. exfalso.
        revert Heq. apply Hgood; [|done].
        split; [done|]. intros ? [= <-] ?. done.
      * split; [done|]. intros _.
        apply Hbad. by apply validate_dates_bad_start.
  - pose proof (Hbad _ (validate_dates_bad_expiration _ start_date w' Hexp)) as Heq.
    split; [done|].
    intros s -> Hs. rewrite Heq. split; [|intros [? _]; done].
    intros [_ H]%error_response_inj. discriminate H.
Qed.

(** C3 (amended) on a create call whose [expiration_date] is not a date. *)
Lemma date_validation_witness :
  let route := POST_create (D := reference_store next_oid) june "Hello" "not-a-date"
                 (Some "2098-01-01") (Some "mrodriguez") in
  resolves (D := reference_store next_oid) "mrodriguez" school school
  /\ ((fst (route school)
       = error_response 400 "Invalid expiration_date format. Use ISO format."
       <-> ~ parseable "not-a-date")
      /\ (forall s, Some "2098-01-01" = Some s -> s <> "" ->
          (fst (route school)
           = error_response 400 "Invalid start_date format. Use ISO format."
           <-> parseable "not-a-date" /\ ~ parseable s)))
  /\ fst (route school) = error_response 400 "Invalid expiration_date format. Use ISO format.".
Proof.
  intros route.
  assert (Hr : resolves (D := reference_store next_oid) "mrodriguez" school school).
  { split; [discriminate|]. exists teacher_rodriguez. split; [reflexivity|].
    apply dict_truthy_true. vm_compute. reflexivity. }
  pose proof (date_validation (D := reference_store next_oid) june "" "Hello" "not-a-date"
                (Some "2098-01-01") "mrodriguez" school school route Hr
                (or_introl eq_refl)) as H.
  split; [exact Hr|]. split; [exact H|].
  exact (proj2 (proj1 H) not_a_date).
Defined.

(** C3 as stated fails: with both dates malformed the answer names
    [expiration_date], not [start_date], although [start_date] does not
    parse. *)
Lemma start_date_error_masked :
  ~ (fst (POST_create (D := reference_store next_oid) june "Hello" "not-a-date"
            (Some "tomorrow") (Some "mrodriguez") school)
     = error_response 400 "Invalid start_date format. Use ISO format."
     <-> ~ parseable "tomorrow").
Proof.
  intros [_ H].
  assert (Hbad : ~ parseable "tomorrow").
  { intros [dt Hdt]. vm_compute in Hdt. discriminate Hdt. }
  specialize (H Hbad). vm_compute in H. discriminate H.
Qed.

(** An empty [start_date] is not checked at all. *)
Example empty_start_date_is_skipped :
  ~ parseable "" /\
  status (fst (POST_create (D := reference_store next_oid) june "Hello"
                 "2099-01-01T00:00:00Z" (Some "") (Some "mrodriguez") school)) = 201.
Proof.
  split; [|vm_compute; reflexivity].
  intros [dt Hdt]. vm_compute in Hdt. discriminate Hdt.
Qed.

(** ** The reference store *)

Lemma matches_nil (d : doc) : matches [] d = true.
Proof. reflexivity. Qed.

Lemma matches_id v (d : doc) :
  v <> VNone -> matches [("_id", Equals v)] d = true <-> d !! "_id" = Some v.
Proof.
  intros Hv. unfold matches. simpl. rewrite andb_true_r.
  destruct v; [done| |]; apply bool_decide_eq_true.
Qed.

Lemma first_match_id_Some v (l : list doc) i d :
  v <> VNone ->
  first_match [("_id", Equals v)] l = Some (i, d) <->
  l !! i = Some d /\ d !! "_id" = Some v /\
  forall j d', l !! j = Some d' -> j < i -> d' !! "_id" <> Some v.
Proof.
  intros Hv. unfold first_match. rewrite list_find_Some.
  rewrite matches_id by done.
  split; intros (H1 & H2 & H3); repeat split; try done.
  - intros j d' Hj Hlt. rewrite <- matches_id by done. by apply (H3 j).
  - intros j d' Hj Hlt. rewrite matches_id by done. by apply (H3 j).
Qed.

Lemma first_match_id_None v (l : list doc) :
  v <> VNone ->
  first_match [("_id", Equals v)] l = None <->
  forall d, d ∈ l -> d !! "_id" <> Some v.
Proof.
  intros Hv. unfold first_match. rewrite list_find_None, Forall_forall.
  split; intros H d Hd; specialize (H d Hd); by rewrite matches_id in *.
Qed.

Lemma unique_ids_lookup (l : list doc) i j a b :
  unique_ids l -> l !! i = Some a -> l !! j = Some b -> a !! "_id" = b !! "_id" -> i = j.
Proof.
  unfold unique_ids. intros Hnd Hi Hj Hab.
  eapply NoDup_lookup; [exact Hnd| |].
  - rewrite list_lookup_fmap, Hi. reflexivity.
  - rewrite list_lookup_fmap, Hj. simpl. by rewrite Hab.
Qed.

Lemma first_match_unique v (l : list doc) i d :
  v <> VNone -> unique_ids l -> l !! i = Some d -> d !! "_id" = Some v ->
  first_match [("_id", Equals v)] l = Some (i, d).
Proof.
  intros Hv Hnd Hi Hd. apply first_match_id_Some; [done|]. repeat split; try done.
  intros j d' Hj Hlt Hd'.
  assert (j = i) by (eapply unique_ids_lookup; eauto; congruence). lia.
Qed.

Lemma store_resolves new_id u w :
  teacher_exists u w -> resolves (D := reference_store new_id) u w w.
Proof.
  intros [Hu (t & Ht & Hid)]. split; [done|].
  unfold teacher_lookup. simpl. unfold store_find_one. simpl.
  destruct (first_match _ _) as [[i t']|] eqn:Hfm.
  - apply first_match_id_Some in Hfm as (_ & Hid' & _); [|done].
    exists t'. split; [done|]. intros ->. by rewrite lookup_empty in Hid'.
  - exfalso. rewrite first_match_id_None in Hfm by done. by apply (Hfm t).
Qed.

Lemma store_unresolvable new_id u w :
  u <> "" -> (forall t, t ∈ teachers_collection w -> t !! "_id" <> Some (VStr u)) ->
  unresolvable (D := reference_store new_id) u w w.
Proof.
  intros Hu Hnone. split; [done|].
  unfold teacher_lookup. simpl. unfold store_find_one. simpl.
  replace (first_match _ _) with (@None (nat * doc)); [done|].
  symmetry. by apply first_match_id_None.
Qed.

Lemma filter_matches_nil (l : list doc) :
  filter (fun d => matches [] d = true) l = l.
Proof.
  induction l as [|d l IH]; [done|]. rewrite filter_cons_True by done. by rewrite IH.
Qed.

Lemma foldl_serialize (cursor acc : list doc) :
  foldl (fun (announcements : list doc) announcement =>
           (announcements ++ [serialize_announcement announcement])%list) acc cursor
  = (acc ++ (serialize_announcement <$> cursor))%list.
Proof.
  revert acc. induction cursor as [|d cursor IH]; intros acc; simpl.
  - by rewrite app_nil_r.
  - rewrite IH. by rewrite <- app_assoc.
Qed.

(** ** Identifiers and the literal [Z] *)

Lemma string_map_length f s : String.length (string_map f s) = String.length s.
Proof. induction s as [|c s IH]; simpl; congruence. Qed.

Lemma lower_hex_is_hex c : is_hex_digit c = true -> is_hex_digit (lower_hex c) = true.
Proof. destruct c as [[] [] [] [] [] [] [] []]; vm_compute; auto. Qed.

Lemma lower_hex_idem c : lower_hex (lower_hex c) = lower_hex c.
Proof. destruct c as [[] [] [] [] [] [] [] []]; vm_compute; reflexivity. Qed.

Lemma string_map_lower_hex s :
  string_forallb is_hex_digit s = true ->
  string_forallb is_hex_digit (string_map lower_hex s) = true
  /\ string_map lower_hex (string_map lower_hex s) = string_map lower_hex s.
Proof.
  induction s as [|c s IH]; simpl; [done|].
  intros [Hc Hs]%andb_true_iff. destruct (IH Hs) as [IH1 IH2].
  rewrite lower_hex_is_hex, IH1, lower_hex_idem, IH2 by done. done.
Qed.

Lemma hex_digit_not_space c : is_hex_digit c = true -> is_space c = false.
Proof. destruct c as [[] [] [] [] [] [] [] []]; vm_compute; auto. Qed.

(** On hexadecimal digits alone the scan pairs them up and lower-cases
    them. *)
Lemma fromhex_scan_digits s :
  string_forallb is_hex_digit s = true ->
  (Nat.even (String.length s) = true ->
   fromhex_scan None s = Some (string_map lower_hex s))
  /\ (Nat.even (String.length s) = false ->
      forall t, fromhex_scan (Some t) s = Some (String (lower_hex t) (string_map lower_hex s))).
Proof.
  induction s as [|c s IH]; [simpl; split; [reflexivity|discriminate]|].
  cbn [string_forallb]. intros [Hc Hs]%andb_true_iff.
  destruct (IH Hs) as [IHe IHo]. change (String.length (String c s)) with (S (String.length s)).
  rewrite Nat.even_succ, <- Nat.negb_even. split; intros Hlen.
  - cbn [fromhex_scan string_map]. rewrite (hex_digit_not_space _ Hc), Hc.
    apply IHo. by destruct (Nat.even (String.length s)).
  - intros t. cbn [fromhex_scan string_map]. rewrite Hc, IHe; [reflexivity|].
    by destruct (Nat.even (String.length s)).
Qed.

(** 24 hexadecimal digits name the twelve bytes they spell, whatever their
    case. *)
Lemma ObjectId_of_str_digits s :
  String.length s = 24%nat -> string_forallb is_hex_digit s = true ->
  ObjectId_of_str s = Some (Oid (string_map lower_hex s)).
Proof.
  intros Hlen Hhex. unfold ObjectId_of_str, fromhex. rewrite Hlen. simpl.
  destruct (fromhex_scan_digits s Hhex) as [-> _]; [done|]. by rewrite Hlen.
Qed.

Lemma ObjectId_of_str_length s :
  String.length s <> 24%nat -> ObjectId_of_str s = None.
Proof.
  intros Hlen. unfold ObjectId_of_str.
  by destruct (Nat.eqb_spec (String.length s) 24).
Qed.

(** The string a record of 24 digits is serialized under names the record
    again. *)
Lemma ObjectId_of_str_roundtrip s o :
  string_forallb is_hex_digit s = true ->
  ObjectId_of_str s = Some o -> ObjectId_of_str (py_str (VOid o)) = Some o.
Proof.
  intros Hhex Hs.
  assert (Hlen : String.length s = 24%nat).
  { destruct (Nat.eq_dec (String.length s) 24) as [|Hn]; [done|].
    by rewrite (ObjectId_of_str_length s Hn) in Hs. }
  rewrite (ObjectId_of_str_digits s Hlen Hhex) in Hs. injection Hs as <-. simpl.
  destruct (string_map_lower_hex s Hhex) as [H1 H2].
  rewrite ObjectId_of_str_digits; [by rewrite H2| by rewrite string_map_length |done].
Qed.

(** Whitespace before a byte is skipped, so 24 characters can name fewer than
    twelve bytes; whitespace inside a byte is not. *)
Example ObjectId_of_str_trailing_spaces :
  ObjectId_of_str "65a1b2c3d4e5f60718293a  " = Some (Oid "65a1b2c3d4e5f60718293a").
Proof. reflexivity. Qed.

Example ObjectId_of_str_split_byte :
  ObjectId_of_str "6 5a1b2c3d4e5f60718293a4" = None.
Proof. reflexivity. Qed.

Lemma str_replace_absent c by_ s :
  has_char c s = false -> str_replace c by_ s = s.
Proof.
  induction s as [|x s IH]; simpl; [done|].
  intros [Hx Hs]%orb_false_iff. rewrite Hx, IH by done. done.
Qed.

(** On a string whose only [Z] is the last character, the handlers' rewrite
    is the UTC designator turned into [+00:00]. *)
Lemma str_replace_trailing_Z s :
  has_char "Z" s = false ->
  str_replace "Z" "+00:00" (s ++ "Z") = s ++ "+00:00".
Proof.
  induction s as [|x s IH]; simpl; [done|].
  intros [Hx Hs]%orb_false_iff. rewrite Hx, IH by done. done.
Qed.

(** ** The store keeps identifiers unique *)

Lemma matches_id_false v (d : doc) :
  matches [("_id", Equals v)] d = false -> d !! "_id" <> Some v.
Proof.
  unfold matches. simpl. rewrite andb_true_r. intros Hm Hd. rewrite Hd in Hm.
  destruct v; simpl in Hm; [done| |]; by rewrite bool_decide_eq_false in Hm.
Qed.

Lemma store_insert_one_unique new_id c d w r w' :
  store_insert_one new_id c d w = (r, w') ->
  unique_ids (get_collection c w) -> unique_ids (get_collection c w').
Proof.
  unfold store_insert_one, first_match. intros Hins Hnd.
  set (d' := match d !! "_id" with Some _ => d | None => <["_id" := VOid (new_id w)]> d end)
    in *.
  assert (Hd' : d' !! "_id" = Some (py_get d' "_id")).
  { unfold py_get, d'. destruct (d !! "_id") eqn:Hd; [by rewrite Hd|].
    by rewrite lookup_insert_eq. }
  destruct (list_find _ _) as [[i x]|] eqn:Hfind.
  - by injection Hins as <- <-.
  - injection Hins as <- <-.
    assert (get_collection c (set_collection c (get_collection c w ++ [d']) w)
            = (get_collection c w ++ [d'])%list) as -> by (by destruct c).
    unfold unique_ids in *. rewrite fmap_app. apply NoDup_app.
    split; [done|]. split; [|apply NoDup_singleton].
    intros x (d0 & -> & Hd0)%list_elem_of_fmap Hx%list_elem_of_singleton.
    apply list_find_None in Hfind. rewrite Forall_forall in Hfind.
    specialize (Hfind d0 Hd0). apply not_true_is_false in Hfind.
    apply matches_id_false in Hfind. congruence.
Qed.

Lemma apply_set_keeps fields (d : doc) k :
  k ∉ fields.*1 -> apply_set fields d !! k = d !! k.
Proof.
  unfold apply_set. revert d. induction fields as [|[k' v] fields IH]; intros d Hk; [done|].
  simpl in *. apply not_elem_of_cons in Hk as [Hne Hk].
  rewrite IH by done. by rewrite lookup_insert_ne.
Qed.

Lemma store_update_one_unique c q fields w r w' :
  "_id" ∉ fields.*1 ->
  store_update_one c q fields w = (r, w') ->
  unique_ids (get_collection c w) -> unique_ids (get_collection c w').
Proof.
  unfold store_update_one, first_match. intros Hk Hupd Hnd.
  destruct (list_find _ _) as [[i d]|] eqn:Hfind.
  - injection Hupd as <- <-. apply list_find_Some in Hfind as (Hi & _).
    assert (get_collection c (set_collection c (<[i := apply_set fields d]>
              (get_collection c w)) w)
            = <[i := apply_set fields d]> (get_collection c w)) as -> by (by destruct c).
    unfold unique_ids in *. rewrite list_fmap_insert. rewrite apply_set_keeps by done.
    rewrite list_insert_id; [done|]. by rewrite list_lookup_fmap, Hi.
  - by injection Hupd as <- <-.
Qed.

Lemma store_delete_one_unique c q w r w' :
  store_delete_one c q w = (r, w') ->
  unique_ids (get_collection c w) -> unique_ids (get_collection c w').
Proof.
  unfold store_delete_one, first_match. intros Hdel Hnd.
  destruct (list_find _ _) as [[i d]|] eqn:Hfind.
  - injection Hdel as <- <-.
    assert (get_collection c (set_collection c (delete i (get_collection c w)) w)
            = delete i (get_collection c w)) as -> by (by destruct c).
    unfold unique_ids in *. rewrite list_fmap_delete.
    eapply sublist_NoDup; [exact Hnd|]. apply sublist_delete.
  - by injection Hdel as <- <-.
Qed.

(** ** The handlers keep the store well-formed *)

Section Invariant.
Context {DT : DatetimeLib}.
Variable new_id : world -> ObjectId.
Let D : Driver := reference_store new_id.

Lemma check_teacher_reads user w :
  snd (check_teacher (D := D) user w) = w.
Proof.
  unfold check_teacher. destruct (negb (opt_str_truthy user)); [done|].
  unfold bind, call. cbn [find_one D reference_store]. unfold store_find_one.
  cbn [fst snd]. destruct (snd <$> first_match _ _) as [t|]; [|done].
  by destruct (negb (dict_truthy t)).
Qed.

Lemma validate_dates_reads expiration_date start_date w :
  snd (validate_dates expiration_date start_date w) = w.
Proof.
  destruct (validate_dates_outcome expiration_date start_date w) as (r & -> & _). done.
Qed.

Lemma insert_keeps_ok (d : doc) w r w' :
  d !! "start_date" <> None -> start_date_typed d ->
  store_insert_one new_id Announcements d w = (r, w') ->
  store_ok w -> store_ok w'.
Proof.
  intros Hsome Hty Hins [Hnd Hall]. split.
  - apply (store_insert_one_unique new_id Announcements d w r w' Hins Hnd).
  - revert Hins. unfold store_insert_one.
    destruct (first_match _ _); intros [= <- <-]; [done|].
    cbn [set_collection get_collection announcements_collection].
    apply Forall_app. split; [done|]. apply Forall_singleton.
    destruct (d !! "_id"); [done|]. unfold start_date_typed in *.
    by rewrite lookup_insert_ne.
Qed.

Lemma update_keeps_ok q now message expiration_date start_date u w r w' :
  store_update_one Announcements q
    (update_fields now message expiration_date start_date u) w = (r, w') ->
  store_ok w -> store_ok w'.
Proof.
  intros Hupd [Hnd Hall]. split.
  - eapply (store_update_one_unique Announcements); [|exact Hupd|exact Hnd].
    cbn. rewrite !not_elem_of_cons. repeat split; try done. apply not_elem_of_nil.
  - revert Hupd. unfold store_update_one.
    destruct (first_match _ _) as [[i d]|]; intros [= <- <-]; [|done].
    cbn [set_collection get_collection announcements_collection].
    apply Forall_insert; [done|].
    unfold start_date_typed. cbn [apply_set update_fields foldl fst snd]. rewrite lookup_insert_ne by done.
    rewrite lookup_insert_ne by done. rewrite lookup_insert_eq.
    by destruct start_date.
Qed.

Lemma delete_keeps_ok q w r w' :
  store_delete_one Announcements q w = (r, w') -> store_ok w -> store_ok w'.
Proof.
  intros Hdel [Hnd Hall]. split.
  - apply (store_delete_one_unique Announcements q w r w' Hdel Hnd).
  - revert Hdel. unfold store_delete_one.
    destruct (first_match _ _) as [[i d]|]; intros [= <- <-]; [|done].
    cbn [set_collection get_collection announcements_collection].
    by apply Forall_delete.
Qed.
End Invariant.

Section RouteInvariant.
Context {DT : DatetimeLib}.
Variable new_id : world -> ObjectId.
Let D : Driver := reference_store new_id.

Lemma create_keeps_ok now message expiration_date start_date user w :
  store_ok w ->
  store_ok (snd (create_announcement (D := D) now message expiration_date start_date
                   user w)).
Proof.
  intros Hok. unfold create_announcement, bind.
  pose proof (check_teacher_reads new_id user w) as Hc. fold D in Hc.
  destruct (check_teacher user w) as [[[]|e] w1]; simpl in Hc; subst w1; [|done].
  pose proof (validate_dates_reads expiration_date start_date w) as Hv.
  destruct (validate_dates expiration_date start_date w) as [[[]|e] w1];
    simpl in Hv; subst w1; [|done].
  unfold call. cbn [insert_one D reference_store].
  destruct (store_insert_one _ _ _ w) as [[e|[d' v]] w1] eqn:Hins.
  - cbn [snd]. eapply insert_keeps_ok; [| |exact Hins|exact Hok].
    + by rewrite lookup_insert_ne, lookup_insert_ne, lookup_insert_eq.
    + unfold start_date_typed.
      rewrite lookup_insert_ne, lookup_insert_ne, lookup_insert_eq by done.
      by destruct start_date.
  - cbn [fst snd]. unfold py_del.
    assert (store_ok w1).
    { eapply insert_keeps_ok; [| |exact Hins|exact Hok].
      + by rewrite lookup_insert_ne, lookup_insert_ne, lookup_insert_eq.
      + unfold start_date_typed.
        rewrite lookup_insert_ne, lookup_insert_ne, lookup_insert_eq by done.
        by destruct start_date. }
    by destruct (_ !! "_id").
Qed.

Lemma update_announcement_keeps_ok now announcement_id message expiration_date start_date
    user w :
  store_ok w ->
  store_ok (snd (update_announcement (D := D) now announcement_id message expiration_date
                   start_date user w)).
Proof.
  intros Hok. unfold update_announcement, bind.
  pose proof (check_teacher_reads new_id user w) as Hc. fold D in Hc.
  destruct (check_teacher user w) as [[[]|e] w1] eqn:Hct; simpl in Hc; subst w1; [|done].
  pose proof (validate_dates_reads expiration_date start_date w) as Hv.
  destruct (validate_dates expiration_date start_date w) as [[[]|e] w1];
    simpl in Hv; subst w1; [|done].
  unfold try_except, bind, of_option.
  destruct (ObjectId_of_str announcement_id) as [o|]; [|done].
  unfold ret at 1. unfold call at 1. cbn [update_one D reference_store].
  assert (Huser : exists u, user = Some u).
  { destruct user; [eauto|]. discriminate Hct. }
  destruct Huser as [u ->]. cbn [value_of_opt].
  change [("message", VStr message); ("expiration_date", VStr expiration_date);
          ("start_date", value_of_opt start_date); ("updated_by", VStr u);
          ("updated_at", VStr now)]
    with (update_fields now message expiration_date start_date u).
  destruct (store_update_one _ _ _ w) as [[e|n] w1] eqn:Hupd.
  - cbn [is_Exception]. eapply update_keeps_ok; eauto.
  - assert (store_ok w1) by (eapply update_keeps_ok; eauto).
    destruct (n =? 0)%nat; [done|]. unfold ret at 1.
    unfold call. cbn [find_one D reference_store]. unfold store_find_one. done.
Qed.

Lemma delete_announcement_keeps_ok announcement_id user w :
  store_ok w ->
  store_ok (snd (delete_announcement (D := D) announcement_id user w)).
Proof.
  intros Hok. unfold delete_announcement, bind.
  pose proof (check_teacher_reads new_id user w) as Hc. fold D in Hc.
  destruct (check_teacher user w) as [[[]|e] w1]; simpl in Hc; subst w1; [|done].
  unfold try_except, bind, of_option.
  destruct (ObjectId_of_str announcement_id) as [o|]; [|done].
  unfold ret at 1. unfold call at 1. cbn [delete_one D reference_store].
  destruct (store_delete_one _ _ w) as [[e|n] w1] eqn:Hdel.
  - cbn [is_Exception]. eapply delete_keeps_ok; eauto.
  - assert (store_ok w1) by (eapply delete_keeps_ok; eauto).
    by destruct (n =? 0)%nat.
Qed.

Lemma respond_world {A} code (enc : A -> option json) (m : M A) w :
  snd (respond code enc m w) = snd (m w).
Proof.
  unfold respond. destruct (m w) as [[a|[]] w1]; try done. by destruct (enc a).
Qed.

(** X19: on the reference store, every protected request leaves a well-formed
    store (unique identifiers, typed [start_date]s) well-formed. *)
Lemma serve_keeps_ok r user w :
  store_ok w -> store_ok (snd (serve (D := D) r user w)).
Proof.
  intros Hok. destruct r; cbn [serve];
    unfold GET_all, POST_create, PUT_update, DELETE_delete; rewrite respond_world.
  - unfold get_all_announcements, bind.
    pose proof (check_teacher_reads new_id user w) as Hc. fold D in Hc.
    by destruct (check_teacher user w) as [[[]|e] w1]; simpl in Hc; subst w1.
  - by apply create_keeps_ok.
  - by apply update_announcement_keeps_ok.
  - by apply delete_announcement_keeps_ok.
Qed.
End RouteInvariant.

(** ** Order of the store *)

Lemma bson_leb_total x y : bson_leb x y = true \/ bson_leb y x = true.
Proof.
  destruct x as [[|a|[a]]|], y as [[|b|[b]]|]; simpl; auto; apply String.leb_total.
Qed.

Lemma string_leb_trans a b c :
  String.leb a b = true -> String.leb b c = true -> String.leb a c = true.
Proof.
  rewrite <- !string_le_leb. apply (@transitivity _ String.le _).
Qed.

Lemma bson_leb_trans x y z :
  bson_leb x y = true -> bson_leb y z = true -> bson_leb x z = true.
Proof.
  destruct x as [[|a|[a]]|], y as [[|b|[b]]|], z as [[|c|[c]]|]; simpl;
    try done; apply string_leb_trans.
Qed.

#[global] Instance sort_order_total key direction : Total (sort_order key direction).
Proof.
  intros a b. unfold sort_order. destruct (direction <? 0)%Z.
  - destruct (bson_leb_total (b !! key) (a !! key)) as [->| ->]; simpl; auto.
  - destruct (bson_leb_total (a !! key) (b !! key)) as [->| ->]; simpl; auto.
Qed.

#[global] Instance sort_order_trans key direction : Transitive (sort_order key direction).
Proof.
  intros a b c. unfold sort_order. destruct (direction <? 0)%Z;
    rewrite !Is_true_true; eauto using bson_leb_trans.
Qed.


Lemma serialize_keeps (d : doc) k :
  k <> "id" -> k <> "_id" -> serialize_announcement d !! k = d !! k.
Proof.
  intros H1 H2. unfold serialize_announcement.
  destruct (dict_truthy d); [|done]. destruct (d !! "_id") eqn:Hid; [|done].
  rewrite lookup_delete_ne by done. by rewrite lookup_insert_ne.
Qed.

Lemma serialize_id (d : doc) v :
  d !! "_id" = Some v ->
  serialize_announcement d = delete "_id" (<["id" := VStr (py_str v)]> d).
Proof.
  intros Hid. unfold serialize_announcement.
  assert (dict_truthy d = true) as ->.
  { apply dict_truthy_true. intros ->. by rewrite lookup_empty in Hid. }
  by rewrite Hid.
Qed.

Lemma store_get_all new_id u w :
  teacher_exists u w ->
  get_all_announcements (D := reference_store new_id) (Some u) w
  = (Ok (serialize_announcement <$>
           merge_sort (sort_order "expiration_date" (-1)) (announcements_collection w)), w).
Proof.
  intros Hu%(store_resolves new_id)%check_teacher_resolves.
  unfold get_all_announcements, bind. rewrite Hu. run.
  unfold store_find. simpl. rewrite filter_matches_nil. by rewrite foldl_serialize.
Qed.

(** The documents of a listing are ones the response model takes when the
    serialized records are. *)
Lemma json_sorted_listing key direction (l : list doc) :
  Forall json_doc (serialize_announcement <$> merge_sort (sort_order key direction) l)
  <-> Forall (fun d => json_doc (serialize_announcement d)) l.
Proof. by rewrite Forall_fmap, merge_sort_Permutation. Qed.

Lemma route_get_all new_id u w :
  teacher_exists u w ->
  let l := serialize_announcement <$>
             merge_sort (sort_order "expiration_date" (-1)) (announcements_collection w) in
  GET_all (D := reference_store new_id) (Some u) w
  = (if decide (Forall (fun d => json_doc (serialize_announcement d))
                  (announcements_collection w))
     then Response 200 (JArray l) else internal_error, w).
Proof.
  intros Hu l. subst l. unfold GET_all, respond. rewrite (store_get_all _ _ _ Hu).
  destruct (decide _) as [Hj|Hj].
  - rewrite encode_list_Some; [done|]. by apply json_sorted_listing.
  - rewrite encode_list_None; [done|]. by rewrite json_sorted_listing.
Qed.



(** ** Listing the active announcements *)

Lemma matches_gte now (d : doc) :
  matches [("expiration_date", Gte (VStr now))] d = true <-> not_expired now d.
Proof.
  unfold matches, not_expired. simpl. rewrite andb_true_r.
  destruct (d !! "expiration_date") as [[|e|o]|]; simpl; try (split; [discriminate|done]).
  symmetry. apply string_le_leb.
Qed.

Lemma string_le_empty s : String.le "" s.
Proof. apply string_le_leb. by destruct s. Qed.

Lemma active_loop_typed now cursor acc w :
  Forall start_date_typed cursor ->
  active_loop now cursor acc w
  = (Ok (acc ++ (serialize_announcement <$> filter (started now) cursor))%list, w).
Proof.
  intros Hty. revert acc. induction Hty as [|d cursor Hd Hty IH]; intros acc.
  - simpl. by rewrite app_nil_r.
  - simpl. unfold bind. unfold start_date_typed in Hd. unfold py_get.
    destruct (d !! "start_date") as [[|s|o]|] eqn:Hs; simpl; try done.
    + rewrite IH. rewrite filter_cons_True by (unfold started; by rewrite Hs).
      simpl. by rewrite <- app_assoc.
    + destruct (str_truthy s) eqn:Ht.
      * unfold py_gt_str, ret. rewrite string_ltb_leb.
        destruct (String.leb s now) eqn:Hle; simpl.
        -- rewrite IH. rewrite filter_cons_True
             by (unfold started; rewrite Hs; by apply string_le_leb).
           simpl. by rewrite <- app_assoc.
        -- rewrite IH. rewrite filter_cons_False; [done|].
           unfold started. rewrite Hs. rewrite string_le_leb. congruence.
      * apply str_truthy_false in Ht as ->. unfold ret. rewrite IH.
        rewrite filter_cons_True
          by (unfold started; rewrite Hs; apply string_le_empty).
        simpl. by rewrite <- app_assoc.
    + rewrite IH. rewrite filter_cons_True by (unfold started; by rewrite Hs).
      simpl. by rewrite <- app_assoc.
Qed.

Lemma call_store_find new_id c q sort w :
  call (find (Driver := reference_store new_id) c q sort) w
  = (Ok (apply_sort sort (filter (fun d => matches q d = true) (get_collection c w))), w).
Proof. reflexivity. Qed.

Lemma store_get_active new_id now w :
  Forall start_date_typed (announcements_collection w) ->
  get_active_announcements (D := reference_store new_id) now w
  = (Ok (serialize_announcement <$> filter (is_active now) (announcements_collection w)), w).
Proof.
  intros Hty. unfold get_active_announcements, bind. rewrite call_store_find.
  unfold apply_sort, get_collection. rewrite active_loop_typed.
  - rewrite app_nil_l. do 3 f_equal. rewrite list_filter_filter.
    apply list_filter_iff. intros d. cbn beta. rewrite matches_gte. unfold is_active. tauto.
  - rewrite Forall_forall in *. intros d [_ Hd]%list_elem_of_filter. by apply Hty.
Qed.

(** A loop that returns has met no [start_date] it could not compare. *)
Lemma active_loop_returns now cursor acc l w w' :
  active_loop now cursor acc w = (Ok l, w') -> Forall start_date_typed cursor.
Proof.
  revert acc. induction cursor as [|d cursor IH]; intros acc Hloop; [constructor|].
  cbn [active_loop] in Hloop. unfold bind, py_get in Hloop.
  destruct (d !! "start_date") as [[|s|o]|] eqn:Hs; simpl in Hloop.
  - constructor; [unfold start_date_typed; by rewrite Hs|]. exact (IH _ Hloop).
  - constructor; [unfold start_date_typed; by rewrite Hs|].
    destruct (str_truthy s); unfold py_gt_str, ret in Hloop; simpl in Hloop.
    + destruct (String.ltb now s); exact (IH _ Hloop).
    + exact (IH _ Hloop).
  - discriminate Hloop.
  - constructor; [unfold start_date_typed; by rewrite Hs|]. exact (IH _ Hloop).
Qed.

Lemma get_active_returns new_id now l w w' :
  get_active_announcements (D := reference_store new_id) now w = (Ok l, w') ->
  l = serialize_announcement <$> filter (is_active now) (announcements_collection w)
  /\ w' = w.
Proof.
  intros Hget. unfold get_active_announcements, bind in Hget.
  rewrite call_store_find in Hget. unfold apply_sort, get_collection in Hget.
  pose proof (active_loop_returns _ _ _ _ _ _ Hget) as Hty.
  rewrite (active_loop_typed _ _ _ _ Hty) in Hget.
  assert (Hf : filter (started now)
                 (filter (fun d => matches [("expiration_date", Gte (VStr now))] d = true)
                    (announcements_collection w))
               = filter (is_active now) (announcements_collection w)).
  { rewrite list_filter_filter. apply list_filter_iff. intros d. cbn beta.
    rewrite matches_gte. unfold is_active. tauto. }
  rewrite Hf, app_nil_l in Hget. by injection Hget as <- <-.
Qed.

Lemma route_get_active new_id now w :
  Forall announcement_typed (announcements_collection w) ->
  GET_active (D := reference_store new_id) now w
  = (Response 200
       (JArray (serialize_announcement <$>
                  filter (is_active now) (announcements_collection w))), w).
Proof.
  intros Hty. unfold GET_active, respond. rewrite store_get_active.
  - rewrite encode_list_Some; [done|]. rewrite Forall_fmap.
    apply Forall_forall. intros d [_ Hd]%list_elem_of_filter.
    apply typed_serializes. rewrite Forall_forall in Hty. by apply Hty.
  - eapply Forall_impl; [exact Hty|]. apply typed_start_date.
Qed.

Lemma route_get_active_returns new_id now l w w' :
  GET_active (D := reference_store new_id) now w = (Response 200 (JArray l), w') ->
  l = serialize_announcement <$> filter (is_active now) (announcements_collection w)
  /\ w' = w.
Proof.
  intros Hanswer. unfold GET_active in Hanswer.
  apply respond_inv in Hanswer
    as [(l0 & body & Hget & Henc & [= <-])
       |[(l0 & _ & _ & [=])|[(s & d & _ & [=])|(e & _ & _ & [=])]]].
  apply encode_list_inv in Henc as [[= ->] _].
  by apply get_active_returns in Hget.
Qed.




(** ** Creating *)

Lemma new_fields_no_id now message expiration_date start_date u :
  new_fields now message expiration_date start_date u !! "_id" = None.
Proof. reflexivity. Qed.

Lemma store_insert_fresh new_id (d : doc) w :
  d !! "_id" = None -> no_record (new_id w) w ->
  call (insert_one (Driver := reference_store new_id) Announcements d) w
  = (Ok (<["_id" := VOid (new_id w)]> d, VOid (new_id w)),
     World (teachers_collection w)
       (announcements_collection w ++ [<["_id" := VOid (new_id w)]> d])).
Proof.
  intros Hd Hfresh. unfold call. cbn [insert_one reference_store].
  unfold store_insert_one. rewrite Hd. unfold py_get.
  rewrite lookup_insert_eq. cbn [default get_collection].
  replace (first_match _ _) with (@None (nat * doc)); [done|].
  symmetry. by apply first_match_id_None.
Qed.

Lemma store_create new_id `{DT : DatetimeLib} now message expiration_date start_date u w :
  teacher_exists u w -> dates_valid expiration_date start_date -> no_record (new_id w) w ->
  let fields := new_fields now message expiration_date start_date u in
  create_announcement (D := reference_store new_id) now message expiration_date start_date
    (Some u) w
  = (Ok (<["id" := VStr (py_str (VOid (new_id w)))]> fields),
     World (teachers_collection w)
       (announcements_collection w ++ [<["_id" := VOid (new_id w)]> fields])).
Proof.
  intros Hu%(store_resolves new_id)%check_teacher_resolves Hv%(validate_dates_ok _ _ w) Hf fields.
  unfold create_announcement, bind. rewrite Hu, Hv.
  change ({[ "message" := VStr message; "expiration_date" := VStr expiration_date;
             "start_date" := value_of_opt start_date;
             "created_by" := value_of_opt (Some u); "created_at" := VStr now ]} : doc)
    with fields.
  rewrite store_insert_fresh by done. cbn [fst snd]. unfold py_del.
  rewrite lookup_insert_ne by done. rewrite lookup_insert_eq. unfold ret.
  rewrite delete_insert_ne by done. rewrite delete_insert_eq.
  by rewrite delete_id by done.
Qed.

Lemma serialize_stored now message expiration_date start_date u (o : ObjectId) :
  let fields := new_fields now message expiration_date start_date u in
  serialize_announcement (<["_id" := VOid o]> fields)
  = <["id" := VStr (py_str (VOid o))]> fields.
Proof.
  intros fields. rewrite (serialize_id _ (VOid o)) by apply lookup_insert_eq.
  rewrite delete_insert_ne by done. rewrite delete_insert_eq.
  by rewrite delete_id by done.
Qed.

Lemma value_of_opt_json o : json_value (value_of_opt o).
Proof. by destruct o. Qed.

(** What create builds holds strings and null only. *)
Lemma new_fields_json now message expiration_date start_date u :
  json_doc (new_fields now message expiration_date start_date u).
Proof.
  unfold new_fields. repeat (apply json_doc_insert; [done || apply value_of_opt_json|]).
  apply map_Forall_empty.
Qed.

Lemma route_create new_id `{DT : DatetimeLib} now message expiration_date start_date u w :
  teacher_exists u w -> dates_valid expiration_date start_date -> no_record (new_id w) w ->
  POST_create (D := reference_store new_id) now message expiration_date start_date
    (Some u) w
  = (Response 201
       (JObject (<["id" := VStr (py_str (VOid (new_id w)))]>
                   (new_fields now message expiration_date start_date u))),
     World (teachers_collection w)
       (announcements_collection w
        ++ [<["_id" := VOid (new_id w)]>
              (new_fields now message expiration_date start_date u)])).
Proof.
  intros Hu Hv Hf. unfold POST_create, respond. rewrite (store_create new_id) by done.
  rewrite encode_dict_Some; [done|].
  apply json_doc_insert; [done|apply new_fields_json].
Qed.

(** C4: a create call with a name that resolves and dates that pass (and an
    identifier from the driver that is not in use) answers 201 with the
    created record, generated [id] included, and persists one new record
    with the given message, both date fields exactly as given,
    [created_by] the caller's name and [created_at] the current
    timestamp. *)
Theorem create_persists (new_id : world -> ObjectId) `{DT : DatetimeLib}
    (now message expiration_date : string) (start_date : option string)
    (u : string) (w : world) :
  teacher_exists u w -> dates_valid expiration_date start_date -> no_record (new_id w) w ->
  exists created stored,
    POST_create (D := reference_store new_id) now message expiration_date start_date
      (Some u) w
    = (Response 201 (JObject created),
       World (teachers_collection w) (announcements_collection w ++ [stored]))
    /\ stored = <["_id" := VOid (new_id w)]>
                  {[ "message" := VStr message;
                     "expiration_date" := VStr expiration_date;
                     "start_date" := value_of_opt start_date;
                     "created_by" := VStr u;
                     "created_at" := VStr now ]}
    /\ created = serialize_announcement stored
    /\ created !! "id" = Some (VStr (py_str (VOid (new_id w))))
    /\ created !! "message" = Some (VStr message)
    /\ created !! "expiration_date" = Some (VStr expiration_date)
    /\ created !! "start_date" = Some (value_of_opt start_date)
    /\ created !! "created_by" = Some (VStr u)
    /\ created !! "created_at" = Some (VStr now).
Proof.
  intros Hu Hv Hf. do 2 eexists. split; [|split; [reflexivity|split]].
  - by rewrite (route_create new_id).
  - symmetry. apply serialize_stored.
  - repeat split; by simplify_map_eq.
Qed.

(** C4 on the small school. *)
Lemma create_persists_witness :
  teacher_exists "mrodriguez" school
  /\ dates_valid "2099-01-01T00:00:00Z" (Some "2098-01-01")
  /\ no_record (next_oid school) school
  /\ exists created stored,
       POST_create (D := reference_store next_oid) june "Hello" "2099-01-01T00:00:00Z"
         (Some "2098-01-01") (Some "mrodriguez") school
       = (Response 201 (JObject created),
          World (teachers_collection school) (announcements_collection school ++ [stored]))
       /\ stored = <["_id" := VOid (next_oid school)]>
                     {[ "message" := VStr "Hello";
                        "expiration_date" := VStr "2099-01-01T00:00:00Z";
                        "start_date" := value_of_opt (Some "2098-01-01");
                        "created_by" := VStr "mrodriguez";
                        "created_at" := VStr june ]}
       /\ created = serialize_announcement stored
       /\ created !! "id" = Some (VStr (py_str (VOid (next_oid school))))
       /\ created !! "message" = Some (VStr "Hello")
       /\ created !! "expiration_date" = Some (VStr "2099-01-01T00:00:00Z")
       /\ created !! "start_date" = Some (value_of_opt (Some "2098-01-01"))
       /\ created !! "created_by" = Some (VStr "mrodriguez")
       /\ created !! "created_at" = Some (VStr june).
Proof.
  pose proof school_teacher as Ht. pose proof dates_2099 as Hd.
  pose proof school_no_generated as Hf.
  split; [exact Ht|]. split; [exact Hd|]. split; [exact Hf|].
  exact (create_persists next_oid june "Hello" "2099-01-01T00:00:00Z" (Some "2098-01-01")
           "mrodriguez" school Ht Hd Hf).
Defined.

(** A created record has the data model's types. *)
Lemma stored_typed now message expiration_date start_date u (o : ObjectId) :
  announcement_typed (<["_id" := VOid o]> (new_fields now message expiration_date start_date u)).
Proof.
  unfold announcement_typed. rewrite delete_insert_eq.
  apply json_doc_delete, new_fields_json.
Qed.

Lemma typed_store_json (l : list doc) :
  Forall announcement_typed l -> Forall (fun d => json_doc (serialize_announcement d)) l.
Proof. intros H. eapply Forall_impl; [exact H|]. apply typed_serializes. Qed.



(** ** Updating and deleting *)

Section GenericStore.
Context {DT : DatetimeLib} {D : Driver}.
Variables (u : string) (w w' : world).
Hypothesis Hu : resolves u w w'.

Lemma update_invalid_id now announcement_id message expiration_date start_date :
  dates_valid expiration_date start_date ->
  ObjectId_of_str announcement_id = None ->
  PUT_update now announcement_id message expiration_date start_date (Some u) w
  = (error_response 400 "Invalid announcement ID", w').
Proof.
  intros Hv%(validate_dates_ok _ _ w') Hid.
  unfold PUT_update, respond, update_announcement, bind.
  rewrite (check_teacher_resolves _ _ _ Hu), Hv. run. by rewrite Hid.
Qed.

Lemma update_driver_error now announcement_id message expiration_date start_date o e w2 :
  dates_valid expiration_date start_date ->
  ObjectId_of_str announcement_id = Some o ->
  update_one Announcements (id_query o)
    (update_fields now message expiration_date start_date u) w' = (inl e, w2) ->
  PUT_update now announcement_id message expiration_date start_date (Some u) w
  = (error_response 400 "Invalid announcement ID", w2).
Proof.
  intros Hv%(validate_dates_ok _ _ w') Hid Hdrv.
  unfold PUT_update, respond, update_announcement, bind.
  rewrite (check_teacher_resolves _ _ _ Hu), Hv. run. rewrite Hid. simpl.
  unfold id_query, update_fields in Hdrv. by rewrite Hdrv.
Qed.

Lemma update_no_match now announcement_id message expiration_date start_date o w2 :
  dates_valid expiration_date start_date ->
  ObjectId_of_str announcement_id = Some o ->
  update_one Announcements (id_query o)
    (update_fields now message expiration_date start_date u) w' = (inr 0, w2) ->
  PUT_update now announcement_id message expiration_date start_date (Some u) w
  = (error_response 404 "Announcement not found", w2).
Proof.
  intros Hv%(validate_dates_ok _ _ w') Hid Hdrv.
  unfold PUT_update, respond, update_announcement, bind.
  rewrite (check_teacher_resolves _ _ _ Hu), Hv. run. rewrite Hid. simpl.
  unfold id_query, update_fields in Hdrv. by rewrite Hdrv.
Qed.

Lemma delete_invalid_id announcement_id :
  ObjectId_of_str announcement_id = None ->
  DELETE_delete announcement_id (Some u) w
  = (error_response 400 "Invalid announcement ID", w').
Proof.
  intros Hid. unfold DELETE_delete, respond, delete_announcement, bind.
  rewrite (check_teacher_resolves _ _ _ Hu). run. by rewrite Hid.
Qed.

Lemma delete_driver_error announcement_id o e w2 :
  ObjectId_of_str announcement_id = Some o ->
  delete_one Announcements (id_query o) w' = (inl e, w2) ->
  DELETE_delete announcement_id (Some u) w
  = (error_response 400 "Invalid announcement ID", w2).
Proof.
  intros Hid Hdrv. unfold DELETE_delete, respond, delete_announcement, bind.
  rewrite (check_teacher_resolves _ _ _ Hu). run. rewrite Hid. simpl.
  unfold id_query in Hdrv. by rewrite Hdrv.
Qed.

Lemma delete_no_match announcement_id o w2 :
  ObjectId_of_str announcement_id = Some o ->
  delete_one Announcements (id_query o) w' = (inr 0, w2) ->
  DELETE_delete announcement_id (Some u) w
  = (error_response 404 "Announcement not found", w2).
Proof.
  intros Hid Hdrv. unfold DELETE_delete, respond, delete_announcement, bind.
  rewrite (check_teacher_resolves _ _ _ Hu). run. rewrite Hid. simpl.
  unfold id_query in Hdrv. by rewrite Hdrv.
Qed.

End GenericStore.

Lemma store_update_missing new_id o fields w :
  no_record o w ->
  update_one (Driver := reference_store new_id) Announcements (id_query o) fields w
  = (inr 0, w).
Proof.
  intros Hno. cbn [update_one reference_store]. unfold store_update_one, id_query.
  replace (first_match _ _) with (@None (nat * doc)); [done|].
  symmetry. by apply first_match_id_None.
Qed.

Lemma store_delete_missing new_id o w :
  no_record o w ->
  delete_one (Driver := reference_store new_id) Announcements (id_query o) w = (inr 0, w).
Proof.
  intros Hno. cbn [delete_one reference_store]. unfold store_delete_one, id_query.
  replace (first_match _ _) with (@None (nat * doc)); [done|].
  symmetry. by apply first_match_id_None.
Qed.

(** C5: on an update or delete call with a name that resolves (and, for
    update, dates that pass): an [announcement_id] that [ObjectId] does not
    take (it raises [InvalidId] unless the string has 24 characters that
    [bytes.fromhex] reads as bytes), or a driver exception in [update_one] /
    [delete_one], is answered 400 "Invalid announcement ID", for every
    driver; an identifier [ObjectId] takes and no record carries is answered
    404. *)
Theorem invalid_id_and_missing_record `{DT : DatetimeLib}
    (now announcement_id message expiration_date : string) (start_date : option string)
    (u : string) :
  (forall (D : Driver) (w w' : world),
     resolves u w w' ->
     (dates_valid expiration_date start_date ->
        (ObjectId_of_str announcement_id = None ->
           PUT_update now announcement_id message expiration_date start_date (Some u) w
           = (error_response 400 "Invalid announcement ID", w'))
        /\ (forall o e w2,
              ObjectId_of_str announcement_id = Some o ->
              update_one Announcements (id_query o)
                (update_fields now message expiration_date start_date u) w' = (inl e, w2) ->
              PUT_update now announcement_id message expiration_date start_date (Some u) w
              = (error_response 400 "Invalid announcement ID", w2)))
     /\ (ObjectId_of_str announcement_id = None ->
           DELETE_delete announcement_id (Some u) w
           = (error_response 400 "Invalid announcement ID", w'))
     /\ (forall o e w2,
           ObjectId_of_str announcement_id = Some o ->
           delete_one Announcements (id_query o) w' = (inl e, w2) ->
           DELETE_delete announcement_id (Some u) w
           = (error_response 400 "Invalid announcement ID", w2)))
  /\ (forall (new_id : world -> ObjectId) (w : world) (o : ObjectId),
        teacher_exists u w ->
        ObjectId_of_str announcement_id = Some o ->
        no_record o w ->
        (dates_valid expiration_date start_date ->
           PUT_update (D := reference_store new_id) now announcement_id message
             expiration_date start_date (Some u) w
           = (error_response 404 "Announcement not found", w))
        /\ DELETE_delete (D := reference_store new_id) announcement_id (Some u) w
           = (error_response 404 "Announcement not found", w)).
Proof.
  split.
  - intros D w w' Hu. split; [|split].
    + intros Hv. split.
      * intros Hid. by apply update_invalid_id.
      * intros o e w2 Hid Hdrv. by eapply update_driver_error.
    + intros Hid. by apply delete_invalid_id.
    + intros o e w2 Hid Hdrv. by eapply delete_driver_error.
  - intros new_id w o Hu%(store_resolves new_id) Hid Hno. split.
    + intros Hv. eapply update_no_match; eauto. by apply store_update_missing.
    + eapply delete_no_match; eauto. by apply store_delete_missing.
Qed.

(** C5 on the small school: a malformed identifier, a store that refuses
    writes, and a well-formed identifier nobody carries. *)
Lemma invalid_id_and_missing_record_witness :
  PUT_update (D := reference_store next_oid) june "42" "Hello" "2099-01-01T00:00:00Z"
    (Some "2098-01-01") (Some "mrodriguez") school
  = (error_response 400 "Invalid announcement ID", school)
  /\ PUT_update (D := read_only_store) june "65a1b2c3d4e5f60718293a4b" "Hello"
       "2099-01-01T00:00:00Z" (Some "2098-01-01") (Some "mrodriguez") school
     = (error_response 400 "Invalid announcement ID", school)
  /\ DELETE_delete (D := reference_store next_oid) "42" (Some "mrodriguez") school
     = (error_response 400 "Invalid announcement ID", school)
  /\ DELETE_delete (D := read_only_store) "65a1b2c3d4e5f60718293a4b" (Some "mrodriguez")
       school
     = (error_response 400 "Invalid announcement ID", school)
  /\ PUT_update (D := reference_store next_oid) june "65a1b2c3d4e5f60718293a4e" "Hello"
       "2099-01-01T00:00:00Z" (Some "2098-01-01") (Some "mrodriguez") school
     = (error_response 404 "Announcement not found", school)
  /\ DELETE_delete (D := reference_store next_oid) "65a1b2c3d4e5f60718293a4e"
       (Some "mrodriguez") school
     = (error_response 404 "Announcement not found", school).
Proof.
  assert (Hr : forall D : Driver,
             find_one (Driver := D) = store_find_one ->
             resolves (D := D) "mrodriguez" school school).
  { intros D HD. split; [discriminate|]. exists teacher_rodriguez.
    unfold teacher_lookup. rewrite HD. split; [reflexivity|].
    apply dict_truthy_true. vm_compute. reflexivity. }
  pose proof (fun id =>
    invalid_id_and_missing_record june id "Hello" "2099-01-01T00:00:00Z"
      (Some "2098-01-01") "mrodriguez") as H.
  refine (conj _ (conj _ (conj _ (conj _ (conj _ _))))).
  - apply (proj1 (proj1 (proj1 (H "42")
             (reference_store next_oid) school school (Hr (reference_store next_oid) eq_refl)) dates_2099)).
    reflexivity.
  - apply (proj2 (proj1 (proj1 (H "65a1b2c3d4e5f60718293a4b")
             read_only_store school school (Hr read_only_store eq_refl)) dates_2099)
             oid_welcome (PyMongoError "NotWritablePrimary") school); reflexivity.
  - apply (proj1 (proj2 (proj1 (H "42")
             (reference_store next_oid) school school (Hr (reference_store next_oid) eq_refl)))).
    reflexivity.
  - apply (proj2 (proj2 (proj1 (H "65a1b2c3d4e5f60718293a4b")
             read_only_store school school (Hr read_only_store eq_refl)))
             oid_welcome (PyMongoError "NotWritablePrimary") school); reflexivity.
  - apply (proj1 (proj2 (H "65a1b2c3d4e5f60718293a4e")
             next_oid school oid_generated school_teacher eq_refl school_no_generated)).
    exact dates_2099.
  - apply (proj2 (proj2 (H "65a1b2c3d4e5f60718293a4e")
             next_oid school oid_generated school_teacher eq_refl school_no_generated)).
Defined.

Lemma apply_set_update_fields now message expiration_date start_date u (d : doc) :
  apply_set (update_fields now message expiration_date start_date u) d
  = <["updated_at" := VStr now]>
      (<["updated_by" := VStr u]>
         (<["start_date" := value_of_opt start_date]>
            (<["expiration_date" := VStr expiration_date]>
               (<["message" := VStr message]> d)))).
Proof. reflexivity. Qed.

Lemma first_match_insert_same o (l : list doc) i d d' :
  first_match (id_query o) l = Some (i, d) ->
  d' !! "_id" = Some (VOid o) ->
  first_match (id_query o) (<[i := d']> l) = Some (i, d').
Proof.
  unfold id_query. intros (Hi & Hd & Hlt)%first_match_id_Some Hd'; [|done].
  apply first_match_id_Some; [done|]. repeat split; [|done|].
  - apply list_lookup_insert_eq. by eapply lookup_lt_Some.
  - intros j d0 Hj Hji. rewrite list_lookup_insert_ne in Hj by lia. by apply (Hlt j).
Qed.

Lemma call_store_find_one new_id c q w :
  call (find_one (Driver := reference_store new_id) c q) w
  = (Ok (snd <$> first_match q (get_collection c w)), w).
Proof. reflexivity. Qed.

Lemma call_store_update new_id q fields w i d :
  first_match q (announcements_collection w) = Some (i, d) ->
  call (update_one (Driver := reference_store new_id) Announcements q fields) w
  = (Ok 1, World (teachers_collection w)
             (<[i := apply_set fields d]> (announcements_collection w))).
Proof.
  intros Hfm. unfold call. cbn [update_one reference_store].
  unfold store_update_one. cbn [get_collection]. by rewrite Hfm.
Qed.

Lemma call_store_delete new_id q w i d :
  first_match q (announcements_collection w) = Some (i, d) ->
  call (delete_one (Driver := reference_store new_id) Announcements q) w
  = (Ok 1, World (teachers_collection w) (delete i (announcements_collection w))).
Proof.
  intros Hfm. unfold call. cbn [delete_one reference_store].
  unfold store_delete_one. cbn [get_collection]. by rewrite Hfm.
Qed.

Lemma typed_insert k v (d : doc) :
  k <> "_id" -> json_value v -> announcement_typed d -> announcement_typed (<[k := v]> d).
Proof.
  intros Hk Hv Hd. unfold announcement_typed. rewrite delete_insert_ne by done.
  by apply json_doc_insert.
Qed.

(** An update keeps a record within the data model's types. *)
Lemma update_typed now message expiration_date start_date u (d : doc) :
  announcement_typed d ->
  announcement_typed (apply_set (update_fields now message expiration_date start_date u) d).
Proof.
  intros Hd. rewrite apply_set_update_fields.
  repeat (apply typed_insert; [done|done || apply value_of_opt_json|]). exact Hd.
Qed.

(** The answer to an update that finds its record: the re-read record,
    serialized, when the response model takes it. *)
Lemma route_update new_id `{DT : DatetimeLib} now announcement_id message expiration_date
    start_date u w o i d :
  teacher_exists u w -> dates_valid expiration_date start_date ->
  ObjectId_of_str announcement_id = Some o ->
  first_match (id_query o) (announcements_collection w) = Some (i, d) ->
  PUT_update (D := reference_store new_id) now announcement_id message expiration_date
    start_date (Some u) w
  = (if decide (json_doc (serialize_announcement
                  (apply_set (update_fields now message expiration_date start_date u) d)))
     then Response 200 (JObject (serialize_announcement
            (apply_set (update_fields now message expiration_date start_date u) d)))
     else internal_error,
     World (teachers_collection w)
       (<[i := apply_set (update_fields now message expiration_date start_date u) d]>
          (announcements_collection w))).
Proof.
  intros Hu%(store_resolves new_id)%check_teacher_resolves Hv%(validate_dates_ok _ _ w)
    Hid Hfm.
  set (d' := apply_set (update_fields now message expiration_date start_date u) d).
  assert (Hd' : d' !! "_id" = Some (VOid o)).
  { unfold d'. rewrite apply_set_update_fields.
    unfold id_query in Hfm. apply first_match_id_Some in Hfm as (_ & Hd & _); [|done].
    by simplify_map_eq. }
  unfold PUT_update, respond, update_announcement, bind. rewrite Hu, Hv.
  unfold try_except, bind, of_option. rewrite Hid. unfold ret at 1.
  rewrite (call_store_update _ _ _ _ i d Hfm). change (apply_set _ d) with d'.
  cbn [Nat.eqb]. unfold ret at 1. rewrite call_store_find_one.
  cbn [get_collection announcements_collection]. fold (id_query o).
  rewrite (first_match_insert_same o _ i d d' Hfm Hd').
  cbn [fmap option_fmap option_map snd]. unfold ret.
  destruct (decide _) as [Hj|Hj].
  - by rewrite encode_dict_Some.
  - by rewrite encode_dict_not_json.
Qed.



Lemma delete_lookup_other {A} (l : list A) i j x :
  delete i l !! j = Some x -> exists j', j' <> i /\ l !! j' = Some x.
Proof.
  intros Hj. destruct (decide (j < i)).
  - exists j. split; [lia|]. by rewrite list_lookup_delete_lt in Hj.
  - exists (S j). split; [lia|]. by rewrite list_lookup_delete_ge in Hj by lia.
Qed.

(** C7: a successful delete of an existing record (in a store with unique
    identifiers, which every handler keeps) removes it and answers 200
    with [{"message": "Announcement deleted successfully"}]; a second delete
    with the same identifier, right after, answers 404. *)
Theorem delete_twice (new_id : world -> ObjectId)
    (announcement_id u : string) (w : world) (o : ObjectId) (i : nat) (d : doc) :
  teacher_exists u w ->
  ObjectId_of_str announcement_id = Some o ->
  unique_ids (announcements_collection w) ->
  announcements_collection w !! i = Some d -> d !! "_id" = Some (VOid o) ->
  let w1 := World (teachers_collection w) (delete i (announcements_collection w)) in
  DELETE_delete (D := reference_store new_id) announcement_id (Some u) w
  = (Response 200 (JObject {[ "message" := VStr "Announcement deleted successfully" ]}), w1)
  /\ no_record o w1
  /\ DELETE_delete (D := reference_store new_id) announcement_id (Some u) w1
     = (error_response 404 "Announcement not found", w1).
Proof.
  intros Hu Hid Hnd Hi Hd w1.
  pose proof (first_match_unique (VOid o) _ i d ltac:(done) Hnd Hi Hd) as Hfm.
  assert (Hno : no_record o w1).
  { intros d' [j Hj]%list_elem_of_lookup_1 Hd'. simpl in Hj.
    apply delete_lookup_other in Hj as (j' & Hne & Hj').
    apply Hne. eapply unique_ids_lookup; eauto. congruence. }
  split; [|split; [done|]].
  - pose proof (check_teacher_resolves _ _ _ (store_resolves new_id u w Hu)) as Hc.
    unfold DELETE_delete, respond, delete_announcement, bind. rewrite Hc.
    unfold try_except, bind, of_option. rewrite Hid. unfold ret at 1.
    by rewrite (call_store_delete _ _ _ i d Hfm).
  - eapply delete_no_match; eauto.
    + apply (store_resolves new_id). exact Hu.
    + by apply store_delete_missing.
Qed.

(** C7 on the small school. *)
Lemma delete_twice_witness :
  let w1 := World (teachers_collection school) (delete 1 (announcements_collection school)) in
  DELETE_delete (D := reference_store next_oid) "65a1b2c3d4e5f60718293a4c"
    (Some "mrodriguez") school
  = (Response 200 (JObject {[ "message" := VStr "Announcement deleted successfully" ]}), w1)
  /\ no_record oid_past w1
  /\ DELETE_delete (D := reference_store next_oid) "65a1b2c3d4e5f60718293a4c"
       (Some "mrodriguez") w1
     = (error_response 404 "Announcement not found", w1).
Proof.
  apply (delete_twice next_oid "65a1b2c3d4e5f60718293a4c" "mrodriguez" school oid_past 1
           announcement_past).
  - exact school_teacher.
  - vm_compute. reflexivity.
  - exact school_unique_ids.
  - reflexivity.
  - reflexivity.
Defined.

(** ** More facts about the small school *)

Lemma school_resolves (D : Driver) :
  find_one (Driver := D) Teachers = store_find_one Teachers ->
  resolves (D := D) "mrodriguez" school school.
Proof.
  intros HD. split; [discriminate|]. exists teacher_rodriguez.
  unfold teacher_lookup. rewrite HD. split; [reflexivity|].
  apply dict_truthy_true. vm_compute. reflexivity.
Qed.

Lemma school_store_ok : store_ok school.
Proof. split; [exact school_unique_ids|exact school_typed]. Qed.


(** ** What a serialized record looks like *)

Lemma serialize_no_internal_id (d : doc) : serialize_announcement d !! "_id" = None.
Proof.
  unfold serialize_announcement. destruct (dict_truthy d) eqn:Ht.
  - destruct (d !! "_id") eqn:Hid; [apply lookup_delete_eq|done].
  - apply negb_false_iff, bool_decide_eq_true in Ht. by subst d.
Qed.

(** X1: [serialize_announcement] removes ["_id"] and puts its [str] under ["id"]
    (over an ["id"] the document already had), keeps every other key, leaves a
    document without ["_id"] as it is, and is idempotent. *)
Theorem serialize_announcement_swaps_id (d : doc) :
  serialize_announcement d !! "_id" = None
  /\ (forall v, d !! "_id" = Some v ->
        serialize_announcement d !! "id" = Some (VStr (py_str v)))
  /\ (d !! "_id" = None -> serialize_announcement d = d)
  /\ (forall k, k <> "id" -> k <> "_id" -> serialize_announcement d !! k = d !! k)
  /\ serialize_announcement (serialize_announcement d) = serialize_announcement d.
Proof.
  split; [apply serialize_no_internal_id|]. split; [|split; [|split]].
  - intros v Hv. rewrite (serialize_id d v Hv).
    rewrite lookup_delete_ne by done. apply lookup_insert_eq.
  - intros Hnone. unfold serialize_announcement. rewrite Hnone. by destruct (dict_truthy d).
  - intros k. apply serialize_keeps.
  - pose proof (serialize_no_internal_id d) as Hnone.
    unfold serialize_announcement at 1. rewrite Hnone.
    by destruct (dict_truthy _).
Qed.

(** X1 on the small school. *)
Lemma serialize_announcement_swaps_id_witness :
  serialize_announcement announcement_welcome !! "id"
  = Some (VStr (py_str (VOid oid_welcome)))
  /\ serialize_announcement teacher_rodriguez !! "id" = Some (VStr "mrodriguez")
  /\ serialize_announcement ({[ "message" := VStr "draft" ]} : doc)
     = {[ "message" := VStr "draft" ]}.
Proof.
  split; [|split].
  - exact (proj1 (proj2 (serialize_announcement_swaps_id announcement_welcome))
             (VOid oid_welcome) eq_refl).
  - exact (proj1 (proj2 (serialize_announcement_swaps_id teacher_rodriguez))
             (VStr "mrodriguez") eq_refl).
  - exact (proj1 (proj2 (proj2 (serialize_announcement_swaps_id
             ({[ "message" := VStr "draft" ]} : doc)))) eq_refl).
Defined.

(** ** No answer shows the store's own identifier *)

Lemma active_loop_serialized now cursor acc l w w' :
  active_loop now cursor acc w = (Ok l, w') ->
  forall r, r ∈ l -> r ∈ acc \/ exists d, d ∈ cursor /\ r = serialize_announcement d.
Proof.
  revert acc w. induction cursor as [|d cursor IH]; intros acc w Hloop r Hr.
  - injection Hloop as <- <-. by left.
  - simpl in Hloop. unfold bind in Hloop.
    destruct ((if value_truthy (py_get d "start_date")
               then py_gt_str (py_get d "start_date") now else ret false) w)
      as [[skip|e] w1] eqn:Hskip; [|discriminate Hloop].
    destruct skip.
    + destruct (IH _ _ Hloop r Hr) as [?|(d0 & Hd0 & ->)]; [by left|].
      right. exists d0. split; [by apply list_elem_of_further|done].
    + destruct (IH _ _ Hloop r Hr) as [Hacc|(d0 & Hd0 & ->)].
      * apply elem_of_app in Hacc as [?|Heq]; [by left|].
        apply list_elem_of_singleton in Heq as ->.
        right. exists d. split; [apply list_elem_of_here|done].
      * right. exists d0. split; [by apply list_elem_of_further|done].
Qed.

Section Raises.
Context {DT : DatetimeLib} {D : Driver}.

Lemma check_teacher_raises user w e w' :
  check_teacher user w = (Raise e, w') ->
  (exists detail, e = HTTPException 401 detail) \/ (exists x, e = DriverError x).
Proof.
  unfold check_teacher. destruct (negb (opt_str_truthy user)).
  - intros [= <- <-]. eauto.
  - unfold bind, call. destruct (find_one _ _ w) as [[x|[t|]] w0].
    + intros [= <- <-]. eauto.
    + destruct (negb (dict_truthy t)); [|discriminate]. intros [= <- <-]. eauto.
    + intros [= <- <-]. eauto.
Qed.

Lemma create_http_status now message expiration_date start_date user w s detail w' :
  create_announcement now message expiration_date start_date user w
  = (Raise (HTTPException s detail), w') -> s = 401 \/ s = 400.
Proof.
  unfold create_announcement, bind.
  destruct (check_teacher user w) as [[[]|e] w0] eqn:Hc.
  - destruct (validate_dates_outcome expiration_date start_date w0)
      as (res & -> & [->|[d1 ->]]).
    + unfold call. destruct (insert_one _ _ w0) as [[x|res] w1]; [discriminate|].
      unfold py_del. destruct (_ !! "_id"); discriminate.
    + intros [= <- _ _]. by right.
  - intros [= -> <-]. apply check_teacher_raises in Hc as [[d1 [= -> _]]|[x [=]]]. by left.
Qed.

Lemma update_http_status now announcement_id message expiration_date start_date user w
    s detail w' :
  update_announcement now announcement_id message expiration_date start_date user w
  = (Raise (HTTPException s detail), w') -> s = 401 \/ s = 400 \/ s = 404.
Proof.
  unfold update_announcement, bind.
  destruct (check_teacher user w) as [[[]|e] w0] eqn:Hc.
  - destruct (validate_dates_outcome expiration_date start_date w0)
      as (res & -> & [->|[d1 ->]]).
    + unfold try_except, bind, of_option.
      destruct (ObjectId_of_str announcement_id) as [o|].
      * unfold ret at 1. unfold call at 1.
        destruct (update_one _ _ _ w0) as [[x|n] w1].
        -- intros [= <- _ _]. auto.
        -- destruct (n =? 0)%nat; [intros [= <- _ _]; auto|].
           unfold ret at 1. unfold call. destruct (find_one _ _ w1) as [[x|found] w2];
             discriminate.
      * intros [= <- _ _]. auto.
    + intros [= <- _ _]. auto.
  - intros [= -> <-]. apply check_teacher_raises in Hc as [[d1 [= -> _]]|[x [=]]]. auto.
Qed.
End Raises.

(** X2: for every driver, no document in a successful answer of list-active,
    list-all, create or update has an ["_id"] key. *)
Theorem answers_hide_internal_id `{DT : DatetimeLib} `{D : Driver} (w : world) :
  (forall now l w', GET_active now w = (Response 200 (JArray l), w') ->
     forall r, r ∈ l -> r !! "_id" = None)
  /\ (forall user l w', GET_all user w = (Response 200 (JArray l), w') ->
        forall r, r ∈ l -> r !! "_id" = None)
  /\ (forall now message expiration_date start_date user r w',
        POST_create now message expiration_date start_date user w
        = (Response 201 (JObject r), w') -> r !! "_id" = None)
  /\ (forall now announcement_id message expiration_date start_date user r w',
        PUT_update now announcement_id message expiration_date start_date user w
        = (Response 200 (JObject r), w') -> r !! "_id" = None).
Proof.
  split; [|split; [|split]].
  - intros now l w' Hget r Hr. unfold GET_active in Hget.
    apply respond_inv in Hget
      as [(l0 & body & Hact & Henc & [= <-])
         |[(l0 & _ & _ & [=])|[(s & d & _ & [=])|(e & _ & _ & [=])]]].
    apply encode_list_inv in Henc as [[= ->] _].
    unfold get_active_announcements, bind in Hact.
    destruct (call _ w) as [[cursor|e] w0]; [|discriminate Hact].
    destruct (active_loop_serialized _ _ _ _ _ _ Hact r Hr) as [Hnil|(d & _ & ->)].
    + by apply elem_of_nil in Hnil.
    + apply serialize_no_internal_id.
  - intros user l w' Hget r Hr. unfold GET_all in Hget.
    apply respond_inv in Hget
      as [(l0 & body & Hall & Henc & [= <-])
         |[(l0 & _ & _ & [=])|[(s & d & _ & [=])|(e & _ & _ & [=])]]].
    apply encode_list_inv in Henc as [[= ->] _].
    unfold get_all_announcements, bind in Hall.
    destruct (check_teacher user w) as [[[]|e] w0]; [|discriminate Hall].
    destruct (call _ w0) as [[cursor|e] w2]; [|discriminate Hall].
    injection Hall as <- <-. rewrite foldl_serialize in Hr.
    apply list_elem_of_fmap in Hr as (d & -> & _). apply serialize_no_internal_id.
  - intros now message expiration_date start_date user r w' Hpost.
    unfold POST_create in Hpost.
    apply respond_inv in Hpost
      as [(r0 & body & Hc & Henc & [= <-])
         |[(r0 & _ & _ & [=])|[(s & d & Hc & [= <- _])|(e & _ & _ & [=])]]].
    + apply encode_dict_inv in Henc as (d0 & [= <-] & [= ->] & _).
      unfold create_announcement, bind in Hc.
      destruct (check_teacher user w) as [[[]|e] w0]; [|discriminate Hc].
      destruct (validate_dates _ _ w0) as [[[]|e] w2]; [|discriminate Hc].
      destruct (call _ w2) as [[res|e] w3]; [|discriminate Hc].
      unfold py_del in Hc. destruct (_ !! "_id"); [|discriminate Hc].
      injection Hc as <- <-. apply lookup_delete_eq.
    + apply create_http_status in Hc. by destruct Hc.
  - intros now announcement_id message expiration_date start_date user r w' Hput.
    unfold PUT_update in Hput.
    apply respond_inv in Hput
      as [(r0 & body & Hu & Henc & [= <-])
         |[(r0 & _ & _ & [=])|[(s & d & Hu & [= <- _])|(e & _ & _ & [=])]]].
    + apply encode_dict_inv in Henc as (d0 & -> & [= ->] & _).
      unfold update_announcement, bind in Hu.
      destruct (check_teacher user w) as [[[]|e] w0]; [|discriminate Hu].
      destruct (validate_dates _ _ w0) as [[[]|e] w2]; [|discriminate Hu].
      destruct (try_except _ _ _ w2) as [[n|e] w3]; [|discriminate Hu].
      destruct (n =? 0)%nat; [discriminate Hu|].
      destruct (of_option _ _ w3) as [[o|e] w4]; [|discriminate Hu].
      destruct (call _ w4) as [[found|e] w5]; [|discriminate Hu].
      injection Hu as Hr <-. destruct found as [d|]; [|discriminate Hr].
      injection Hr as <-. apply serialize_no_internal_id.
    + apply update_http_status in Hu. by destruct Hu as [?|[?|?]].
Qed.

(** X2 on the small school. *)
Lemma answers_hide_internal_id_witness :
  GET_active (D := reference_store next_oid) june school
  = (Response 200 (JArray [
       {[ "id" := VStr "65a1b2c3d4e5f60718293a4b";
          "message" := VStr "Welcome back";
          "expiration_date" := VStr "2025-12-31T23:59:59";
          "start_date" := VStr "2025-01-01T00:00:00";
          "created_by" := VStr "mrodriguez";
          "created_at" := VStr "2025-01-01T08:00:00" ]} ]), school)
  /\ Forall (fun r : doc => r !! "_id" = None)
       [ ({[ "id" := VStr "65a1b2c3d4e5f60718293a4b";
             "message" := VStr "Welcome back";
             "expiration_date" := VStr "2025-12-31T23:59:59";
             "start_date" := VStr "2025-01-01T00:00:00";
             "created_by" := VStr "mrodriguez";
             "created_at" := VStr "2025-01-01T08:00:00" ]} : doc) ].
Proof.
  split; [exact active_in_june|]. apply Forall_forall.
  exact (proj1 (answers_hide_internal_id (D := reference_store next_oid) school)
           june _ school active_in_june).
Defined.

(** ** Driver failures and malformed dates, for every driver *)

Section Failures.
Context {DT : DatetimeLib} {D : Driver}.

Lemma validate_dates_invalid expiration_date start_date w :
  ~ dates_valid expiration_date start_date ->
  exists detail,
    validate_dates expiration_date start_date w = (Raise (HTTPException 400 detail), w).
Proof.
  intros Hbad. destruct (decide (parseable expiration_date)) as [Hexp|Hexp].
  - destruct start_date as [s|].
    + destruct (decide (s = "")) as [->|Hs].
      * exfalso. apply Hbad. split; [done|]. intros ? [= <-] ?. done.
      * destruct (decide (parseable s)) as [Hok|Hno].
        -- exfalso. apply Hbad. split; [done|]. intros ? [= <-] ?. done.
        -- eexists. by apply validate_dates_bad_start.
    + exfalso. apply Hbad. split; [done|]. intros ? [=].
  - eexists. by apply validate_dates_bad_expiration.
Qed.

Lemma dates_valid_cases expiration_date start_date :
  dates_valid expiration_date start_date \/ ~ dates_valid expiration_date start_date.
Proof.
  destruct (decide (parseable expiration_date)) as [Hexp|Hexp]; [|right; by intros [? _]].
  destruct start_date as [s|]; [|left; split; [done|]; intros ? [=]].
  destruct (decide (s = "")) as [->|Hs]; [left; split; [done|]; by intros ? [= <-] ?|].
  destruct (decide (parseable s)) as [Hok|Hno].
  - left. split; [done|]. by intros ? [= <-] ?.
  - right. intros [_ H]. apply Hno. by apply H.
Qed.

Lemma check_teacher_lookup_fails u w e w' :
  u <> "" -> teacher_lookup u w = (inl e, w') ->
  check_teacher (Some u) w = (Raise (DriverError e), w').
Proof.
  intros Hu%str_truthy_true Hl. unfold check_teacher, teacher_lookup in *. simpl.
  rewrite Hu. unfold bind, call. simpl. by rewrite Hl.
Qed.
End Failures.

(** X3: for every driver, a create or update call whose dates do not pass is
    answered 400 and leaves the store as the credential lookup left it: no
    write is attempted. *)
Theorem malformed_dates_stop_before_the_store `{DT : DatetimeLib} `{D : Driver}
    (now announcement_id message expiration_date : string) (start_date : option string)
    (u : string) (w w' : world) :
  resolves u w w' -> ~ dates_valid expiration_date start_date ->
  exists detail,
    POST_create now message expiration_date start_date (Some u) w
    = (error_response 400 detail, w')
    /\ PUT_update now announcement_id message expiration_date start_date (Some u) w
       = (error_response 400 detail, w').
Proof.
  intros Hu Hbad.
  destruct (validate_dates_invalid expiration_date start_date w' Hbad) as [detail Hv].
  exists detail. split.
  - by apply create_bad_dates.
  - by apply update_bad_dates.
Qed.

(** X3 on the small school. *)
Lemma malformed_dates_stop_before_the_store_witness :
  resolves (D := read_only_store) "mrodriguez" school school
  /\ ~ dates_valid "2099-01-01T00:00:00Z" (Some "next week")
  /\ exists detail,
       POST_create (D := read_only_store) june "Hello" "2099-01-01T00:00:00Z"
         (Some "next week") (Some "mrodriguez") school
       = (error_response 400 detail, school)
       /\ PUT_update (D := read_only_store) june "42" "Hello" "2099-01-01T00:00:00Z"
            (Some "next week") (Some "mrodriguez") school
          = (error_response 400 detail, school).
Proof.
  assert (Hr : resolves (D := read_only_store) "mrodriguez" school school)
    by (apply school_resolves; reflexivity).
  assert (Hbad : ~ dates_valid "2099-01-01T00:00:00Z" (Some "next week")).
  { intros [_ H]. destruct (H "next week" eq_refl ltac:(discriminate)) as [dt Hdt].
    vm_compute in Hdt. discriminate Hdt. }
  split; [exact Hr|]. split; [exact Hbad|].
  exact (malformed_dates_stop_before_the_store (D := read_only_store) june "42" "Hello"
           "2099-01-01T00:00:00Z" (Some "next week") "mrodriguez" school school Hr Hbad).
Defined.

(** X4: for every driver, a driver exception in the credential lookup is not
    caught: each of the four protected routes answers 500. *)
Theorem credential_lookup_failure_is_500 `{DT : DatetimeLib} `{D : Driver}
    (r : protected_request) (u : string) (w w' : world) (e : driver_exn) :
  u <> "" -> teacher_lookup u w = (inl e, w') ->
  serve r (Some u) w = (internal_error, w').
Proof.
  intros Hu Hl. pose proof (check_teacher_lookup_fails u w e w' Hu Hl) as Hc.
  destruct r; cbn [serve]; unfold_routes; unfold bind; rewrite Hc; reflexivity.
Qed.

(** X4 on the small school. *)
Lemma credential_lookup_failure_is_500_witness :
  serve (D := offline_store) (Delete "65a1b2c3d4e5f60718293a4b") (Some "mrodriguez") school
  = (internal_error, school).
Proof.
  apply (credential_lookup_failure_is_500 (D := offline_store)
           (Delete "65a1b2c3d4e5f60718293a4b") "mrodriguez" school school
           (PyMongoError "AutoReconnect")).
  - discriminate.
  - reflexivity.
Defined.

(** X5: for every driver, a driver exception outside the two guarded calls
    (the scan of list-active and of list-all, the insert of create, the
    re-read of update) is answered 500, not 400; in the last case the update
    has already been written. *)
Theorem unguarded_store_failures_are_500 `{DT : DatetimeLib} `{D : Driver}
    (now announcement_id message expiration_date : string) (start_date : option string)
    (u : string) (w w' w2 : world) (e : driver_exn) :
  (find Announcements [("expiration_date", Gte (VStr now))] None w = (inl e, w2) ->
     GET_active now w = (internal_error, w2))
  /\ (resolves u w w' ->
      (find Announcements [] (Some ("expiration_date", (-1)%Z)) w' = (inl e, w2) ->
         GET_all (Some u) w = (internal_error, w2))
      /\ (dates_valid expiration_date start_date ->
          insert_one Announcements (new_fields now message expiration_date start_date u) w'
          = (inl e, w2) ->
          POST_create now message expiration_date start_date (Some u) w
          = (internal_error, w2))
      /\ (forall o n w1,
            dates_valid expiration_date start_date ->
            ObjectId_of_str announcement_id = Some o ->
            update_one Announcements (id_query o)
              (update_fields now message expiration_date start_date u) w' = (inr n, w1) ->
            n <> 0 ->
            find_one Announcements (id_query o) w1 = (inl e, w2) ->
            PUT_update now announcement_id message expiration_date start_date (Some u) w
            = (internal_error, w2))).
Proof.
  split.
  - intros Hf. unfold_routes. unfold bind, call. by rewrite Hf.
  - intros Hu%check_teacher_resolves. split; [|split].
    + intros Hf. unfold_routes. unfold bind, call. by rewrite Hu, Hf.
    + intros Hv%(validate_dates_ok _ _ w') Hi. unfold_routes. unfold bind, call.
      rewrite Hu, Hv. unfold new_fields in Hi. cbn [value_of_opt]. by rewrite Hi.
    + intros o n w1 Hv%(validate_dates_ok _ _ w') Hid Hupd Hn Hre.
      unfold_routes. unfold bind. rewrite Hu, Hv.
      unfold try_except, bind, of_option. rewrite Hid. unfold ret at 1. unfold call at 1.
      unfold id_query, update_fields in Hupd. cbn [value_of_opt]. rewrite Hupd.
      apply Nat.eqb_neq in Hn. rewrite Hn. unfold ret at 1. unfold call.
      unfold id_query in Hre. by rewrite Hre.
Qed.

(** X5 on the small school. *)
Lemma unguarded_store_failures_are_500_witness :
  GET_active (D := offline_store) june school = (internal_error, school)
  /\ POST_create (D := read_only_store) june "Hello" "2099-01-01T00:00:00Z"
       (Some "2098-01-01") (Some "mrodriguez") school
     = (internal_error, school)
  /\ PUT_update (D := reread_fails_store) june "65a1b2c3d4e5f60718293a4b" "Hello"
       "2099-01-01T00:00:00Z" (Some "2098-01-01") (Some "mrodriguez") school
     = (internal_error,
        school_after_update).
Proof.
  split; [|split].
  - apply (proj1 (unguarded_store_failures_are_500 (D := offline_store) june "" "" ""
                    None "" school school school (PyMongoError "AutoReconnect"))).
    reflexivity.
  - apply (proj1 (proj2 (proj2 (unguarded_store_failures_are_500 (D := read_only_store)
             june "" "Hello" "2099-01-01T00:00:00Z" (Some "2098-01-01") "mrodriguez"
             school school school (PyMongoError "NotWritablePrimary"))
             (school_resolves read_only_store eq_refl)))).
    + exact dates_2099.
    + reflexivity.
  - apply (proj2 (proj2 (proj2 (unguarded_store_failures_are_500 (D := reread_fails_store)
             june "65a1b2c3d4e5f60718293a4b" "Hello" "2099-01-01T00:00:00Z"
             (Some "2098-01-01") "mrodriguez" school school school_after_update
             (PyMongoError "AutoReconnect"))
             (school_resolves reread_fails_store eq_refl)))
             oid_welcome 1 school_after_update).
    + exact dates_2099.
    + vm_compute. reflexivity.
    + reflexivity.
    + discriminate.
    + reflexivity.
Defined.

(** X6: for every driver, an update that matched answers with whatever the
    re-read finds: 200 with the document, serialized, when it is one the
    response model takes, 500 when it is not, and 500 as well when the record
    is gone by then, since the [None] the handler returns is not a
    [Dict[str, Any]]. *)
Theorem update_answers_with_the_reread `{DT : DatetimeLib} `{D : Driver}
    (now announcement_id message expiration_date : string) (start_date : option string)
    (u : string) (w w' w1 w2 : world) (o : ObjectId) (n : nat) (found : option doc) :
  resolves u w w' -> dates_valid expiration_date start_date ->
  ObjectId_of_str announcement_id = Some o ->
  update_one Announcements (id_query o)
    (update_fields now message expiration_date start_date u) w' = (inr n, w1) ->
  n <> 0 ->
  find_one Announcements (id_query o) w1 = (inr found, w2) ->
  let answer :=
    PUT_update now announcement_id message expiration_date start_date (Some u) w in
  (forall d, found = Some d -> json_doc (serialize_announcement d) ->
     answer = (Response 200 (JObject (serialize_announcement d)), w2))
  /\ (forall d, found = Some d -> ~ json_doc (serialize_announcement d) ->
        answer = (internal_error, w2))
  /\ (found = None -> answer = (internal_error, w2)).
Proof.
  intros Hu%check_teacher_resolves Hv%(validate_dates_ok _ _ w') Hid Hupd Hn Hre answer.
  assert (Hput : answer
                 = (match encode_dict (serialize_announcement <$> found) with
                    | Some body => Response 200 body
                    | None => internal_error
                    end, w2)).
  { subst answer. unfold_routes. unfold bind. rewrite Hu, Hv.
    unfold try_except, bind, of_option. rewrite Hid. unfold ret at 1. unfold call at 1.
    unfold id_query, update_fields in Hupd. cbn [value_of_opt]. rewrite Hupd.
    apply Nat.eqb_neq in Hn. rewrite Hn. unfold ret at 1. unfold call.
    unfold id_query in Hre. rewrite Hre. unfold ret.
    by destruct (encode_dict _). }
  rewrite Hput. split; [|split].
  - intros d -> Hj. cbn [fmap option_fmap option_map]. by rewrite encode_dict_Some.
  - intros d -> Hj. cbn [fmap option_fmap option_map]. by rewrite encode_dict_not_json.
  - intros ->. cbn [fmap option_fmap option_map]. by rewrite encode_dict_missing.
Qed.

(** X6 on the small school. *)
Lemma update_answers_with_the_reread_witness :
  PUT_update (D := racing_store) june "65a1b2c3d4e5f60718293a4b" "Hello"
    "2099-01-01T00:00:00Z" (Some "2098-01-01") (Some "mrodriguez") school
  = (internal_error, school_after_update).
Proof.
  apply (proj2 (proj2 (update_answers_with_the_reread (D := racing_store) june
                  "65a1b2c3d4e5f60718293a4b" "Hello" "2099-01-01T00:00:00Z"
                  (Some "2098-01-01") "mrodriguez" school school school_after_update
                  school_after_update oid_welcome 1 None
                  (school_resolves racing_store eq_refl) dates_2099
                  ltac:(vm_compute; reflexivity) eq_refl ltac:(discriminate) eq_refl))).
  reflexivity.
Defined.

(** ** What each route does to the reference store *)

Section Effects.
Context {DT : DatetimeLib}.
Variable new_id : world -> ObjectId.
Let D : Driver := reference_store new_id.

Lemma check_teacher_store user w :
  (exists u, user = Some u /\ teacher_exists u w
             /\ check_teacher (D := D) user w = (Ok tt, w))
  \/ (exists detail, check_teacher (D := D) user w = (Raise (HTTPException 401 detail), w)).
Proof.
  destruct user as [u|]; [|right; eexists; reflexivity].
  destruct (decide (u = "")) as [->|Hu]; [right; eexists; reflexivity|].
  destruct (first_match [("_id", Equals (VStr u))] (teachers_collection w))
    as [[i t]|] eqn:Hfm.
  - left. exists u. split; [done|].
    apply first_match_id_Some in Hfm as (Hi & Ht & _); [|done].
    assert (Hex : teacher_exists u w).
    { split; [done|]. exists t. split; [by eapply list_elem_of_lookup_2|done]. }
    split; [done|]. apply check_teacher_resolves. by apply store_resolves.
  - right. eexists. apply check_teacher_unresolvable. apply store_unresolvable; [done|].
    by apply first_match_id_None.
Qed.

Lemma active_loop_reads now cursor acc w :
  snd (active_loop now cursor acc w) = w.
Proof.
  revert acc. induction cursor as [|d cursor IH]; intros acc; [done|].
  simpl. unfold bind.
  destruct (value_truthy (py_get d "start_date")).
  - unfold py_gt_str. destruct (py_get d "start_date"); try done.
    unfold ret. destruct (String.ltb now s); apply IH.
  - unfold ret. apply IH.
Qed.

Lemma create_effect now message expiration_date start_date user w :
  let result := POST_create (D := D) now message expiration_date start_date user w in
  (exists u, user = Some u /\ teacher_exists u w
     /\ dates_valid expiration_date start_date /\ no_record (new_id w) w
     /\ result
        = (Response 201 (JObject (serialize_announcement
             (stored_record new_id now message expiration_date start_date u w))),
           World (teachers_collection w)
             (announcements_collection w
              ++ [stored_record new_id now message expiration_date start_date u w])))
  \/ (status (fst result) <> 201 /\ snd result = w).
Proof.
  intros result. subst result.
  destruct (check_teacher_store user w) as [(u & -> & Hex & Hc)|[detail Hc]].
  - destruct (dates_valid_cases expiration_date start_date) as [Hv|Hv].
    + destruct (first_match (id_query (new_id w)) (announcements_collection w))
        as [[i d]|] eqn:Hfm.
      * right. unfold_routes. unfold bind. fold D. rewrite Hc.
        rewrite (validate_dates_ok _ _ w Hv). unfold call.
        cbn [insert_one D reference_store]. unfold store_insert_one.
        change ({[ "message" := VStr message; "expiration_date" := VStr expiration_date;
                   "start_date" := value_of_opt start_date;
                   "created_by" := value_of_opt (Some u); "created_at" := VStr now ]} : doc)
          with (new_fields now message expiration_date start_date u).
        rewrite new_fields_no_id. unfold py_get. rewrite lookup_insert_eq.
        cbn [default from_option get_collection]. unfold id.
        fold (id_query (new_id w)). rewrite Hfm. done.
      * left. exists u. unfold id_query in Hfm.
        rewrite first_match_id_None in Hfm by done.
        repeat (split; [done|]).
        unfold D. rewrite (route_create new_id) by done.
        unfold stored_record. by rewrite serialize_stored.
    + right. destruct (validate_dates_invalid expiration_date start_date w Hv)
        as [detail Hbad].
      rewrite (create_bad_dates (D := D) now message _ _ u w w detail
                 (store_resolves new_id u w Hex) Hbad). done.
  - right. unfold_routes. unfold bind. fold D. by rewrite Hc.
Qed.
End Effects.

Section WriteEffects.
Context {DT : DatetimeLib}.
Variable new_id : world -> ObjectId.
Let D : Driver := reference_store new_id.

Lemma update_effect now announcement_id message expiration_date start_date user w :
  let result := PUT_update (D := D) now announcement_id message expiration_date
                  start_date user w in
  (exists u o i d,
     user = Some u /\ teacher_exists u w /\ dates_valid expiration_date start_date
     /\ ObjectId_of_str announcement_id = Some o
     /\ first_match (id_query o) (announcements_collection w) = Some (i, d)
     /\ let d' := apply_set (update_fields now message expiration_date start_date u) d in
        result = (if decide (json_doc (serialize_announcement d'))
                  then Response 200 (JObject (serialize_announcement d'))
                  else internal_error,
                  World (teachers_collection w) (<[i := d']> (announcements_collection w))))
  \/ (status (fst result) <> 200 /\ snd result = w).
Proof.
  intros result. subst result.
  destruct (check_teacher_store new_id user w) as [(u & -> & Hex & Hc)|[detail Hc]];
    fold D in Hc.
  - pose proof (store_resolves new_id u w Hex) as Hres. fold D in Hres.
    destruct (dates_valid_cases expiration_date start_date) as [Hv|Hv].
    + destruct (ObjectId_of_str announcement_id) as [o|] eqn:Hid.
      * destruct (first_match (id_query o) (announcements_collection w))
          as [[i d]|] eqn:Hfm.
        -- left. exists u, o, i, d. repeat (split; [done|]). intros d'.
           unfold D. by rewrite (route_update new_id _ _ _ _ _ _ _ o i d Hex Hv Hid Hfm).
        -- right. unfold id_query in Hfm. rewrite first_match_id_None in Hfm by done.
           rewrite (update_no_match (D := D) u w w Hres now announcement_id message
                      expiration_date start_date o w Hv Hid
                      (store_update_missing new_id o _ w Hfm)). done.
      * right. rewrite (update_invalid_id (D := D) u w w Hres now announcement_id message
                          expiration_date start_date Hv Hid). done.
    + right. destruct (validate_dates_invalid expiration_date start_date w Hv)
        as [detail Hbad].
      rewrite (update_bad_dates (D := D) now announcement_id message _ _ u w w detail
                 Hres Hbad). done.
  - right. unfold_routes. unfold bind. by rewrite Hc.
Qed.

Lemma delete_effect announcement_id user w :
  let result := DELETE_delete (D := D) announcement_id user w in
  (exists u o i d,
     user = Some u /\ teacher_exists u w
     /\ ObjectId_of_str announcement_id = Some o
     /\ first_match (id_query o) (announcements_collection w) = Some (i, d)
     /\ result
        = (Response 200 (JObject {[ "message" := VStr "Announcement deleted successfully" ]}),
           World (teachers_collection w) (delete i (announcements_collection w))))
  \/ (status (fst result) <> 200 /\ snd result = w).
Proof.
  intros result. subst result.
  destruct (check_teacher_store new_id user w) as [(u & -> & Hex & Hc)|[detail Hc]];
    fold D in Hc.
  - pose proof (store_resolves new_id u w Hex) as Hres. fold D in Hres.
    destruct (ObjectId_of_str announcement_id) as [o|] eqn:Hid.
    + destruct (first_match (id_query o) (announcements_collection w))
        as [[i d]|] eqn:Hfm.
      * left. exists u, o, i, d. repeat (split; [done|]).
        unfold DELETE_delete, respond, delete_announcement, bind. rewrite Hc.
        unfold try_except, bind, of_option. rewrite Hid. unfold ret at 1.
        unfold D. by rewrite (call_store_delete _ _ _ i d Hfm).
      * right. unfold id_query in Hfm. rewrite first_match_id_None in Hfm by done.
        rewrite (delete_no_match (D := D) u w w Hres announcement_id o w Hid
                   (store_delete_missing new_id o w Hfm)). done.
    + right. rewrite (delete_invalid_id (D := D) u w w Hres announcement_id Hid). done.
  - right. unfold_routes. unfold bind. by rewrite Hc.
Qed.

Lemma list_all_reads user w : snd (GET_all (D := D) user w) = w.
Proof.
  unfold GET_all. rewrite respond_world. unfold get_all_announcements, bind.
  pose proof (check_teacher_reads new_id user w) as Hc. fold D in Hc.
  by destruct (check_teacher user w) as [[[]|e] w1]; simpl in Hc; subst w1.
Qed.

Lemma list_active_reads now w : snd (GET_active (D := D) now w) = w.
Proof.
  unfold GET_active. rewrite respond_world. unfold get_active_announcements, bind.
  unfold D. rewrite call_store_find. apply active_loop_reads.
Qed.
End WriteEffects.

(** ** Consequences for the reference store *)

(** X20: on the reference store, every protected request leaves a store whose
    announcements have the data model's types (strings or null next to the
    internal identifier) a store of that kind. *)
Theorem serve_keeps_typed (new_id : world -> ObjectId) `{DT : DatetimeLib}
    (r : protected_request) (user : option string) (w : world) :
  Forall announcement_typed (announcements_collection w) ->
  Forall announcement_typed
    (announcements_collection (snd (serve (D := reference_store new_id) r user w))).
Proof.
  intros Hty. destruct r; cbn [serve].
  - by rewrite list_all_reads.
  - destruct (create_effect new_id now message expiration_date start_date user w)
      as [(u & _ & _ & _ & _ & ->)|[_ ->]]; [|done].
    cbn [snd announcements_collection]. apply Forall_app. split; [done|].
    apply Forall_singleton, stored_typed.
  - destruct (update_effect new_id now announcement_id message expiration_date start_date
                user w) as [(u & o & i & d & _ & _ & _ & _ & Hfm & ->)|[_ ->]]; [|done].
    cbn [snd announcements_collection]. apply Forall_insert; [done|].
    apply update_typed. unfold id_query in Hfm.
    apply first_match_id_Some in Hfm as (Hi & _ & _); [|done].
    by apply (Forall_lookup_1 _ _ _ _ Hty Hi).
  - destruct (delete_effect new_id announcement_id user w)
      as [(u & o & i & d & _ & _ & _ & _ & ->)|[_ ->]]; [|done].
    cbn [snd announcements_collection]. by apply Forall_delete.
Qed.

(** X20 on the small school: an update keeps the types. *)
Lemma serve_keeps_typed_witness :
  Forall announcement_typed
    (announcements_collection
       (snd (serve (D := reference_store next_oid)
               (Update june "65a1b2c3d4e5f60718293a4b" "Hello" "2099-01-01T00:00:00Z" None)
               (Some "mrodriguez") school))).
Proof.
  exact (serve_keeps_typed next_oid
           (Update june "65a1b2c3d4e5f60718293a4b" "Hello" "2099-01-01T00:00:00Z" None)
           (Some "mrodriguez") school school_announcements_typed).
Defined.

(** X7: on the reference store, list-active and list-all leave the store as
    it was, whatever they answer. *)
Theorem listing_never_writes (new_id : world -> ObjectId) (now : string)
    (user : option string) (w : world) :
  snd (GET_active (D := reference_store new_id) now w) = w
  /\ snd (GET_all (D := reference_store new_id) user w) = w.
Proof. split; [apply list_active_reads|apply list_all_reads]. Qed.

(** X8: on the reference store, a protected request answered with a status
    other than 200, 201 and 500 leaves the store as it was, and so does a
    list-all, a create or a delete answered 500.  (An update encodes its
    answer after the write, so an update answered 500 may have written.) *)
Theorem failed_requests_change_nothing (new_id : world -> ObjectId) `{DT : DatetimeLib}
    (r : protected_request) (user : option string) (w : world) :
  let answer := serve (D := reference_store new_id) r user w in
  status (fst answer) <> 200 ->
  status (fst answer) <> 201 ->
  status (fst answer) <> 500
  \/ (forall now announcement_id message expiration_date start_date,
        r <> Update now announcement_id message expiration_date start_date) ->
  snd answer = w.
Proof.
  intros answer H200 H201 H500. subst answer. destruct r; cbn [serve] in *.
  - apply list_all_reads.
  - destruct (create_effect new_id now message expiration_date start_date user w)
      as [(u & _ & _ & _ & _ & Heq)|[_ Hw]]; [|exact Hw].
    rewrite Heq in H201. by destruct H201.
  - destruct (update_effect new_id now announcement_id message expiration_date start_date
                user w) as [(u & o & i & d & _ & _ & _ & _ & _ & Heq)|[_ Hw]]; [|exact Hw].
    destruct H500 as [H500|Hnot]; [|by destruct (Hnot _ _ _ _ _ eq_refl)].
    cbv zeta in Heq. rewrite Heq in H200, H500. cbn [fst] in H200, H500.
    destruct (decide _); [by destruct H200|by destruct H500].
  - destruct (delete_effect new_id announcement_id user w)
      as [(u & o & i & d & _ & _ & _ & _ & Heq)|[_ Hw]]; [|exact Hw].
    rewrite Heq in H200. by destruct H200.
Qed.

(** X8 on the small school. *)
Lemma failed_requests_change_nothing_witness :
  snd (serve (D := reference_store next_oid) (Delete "42") (Some "mrodriguez") school)
  = school.
Proof.
  apply (failed_requests_change_nothing next_oid (Delete "42") (Some "mrodriguez") school).
  - vm_compute. discriminate.
  - vm_compute. discriminate.
  - left. vm_compute. discriminate.
Defined.

(** An update of a record the response model does not take is written and
    then answered 500. *)
Example update_written_then_500 :
  let answer :=
    PUT_update (D := reference_store next_oid) june "65a1b2c3d4e5f60718293a4c" "Hello"
      "2099-01-01T00:00:00Z" None (Some "mrodriguez") school_foreign in
  fst answer = internal_error
  /\ announcements_collection (snd answer) !! 1
     = Some (apply_set (update_fields june "Hello" "2099-01-01T00:00:00Z" None "mrodriguez")
               announcement_foreign)
  /\ snd answer <> school_foreign.
Proof.
  split; [vm_compute; reflexivity|]. split; [vm_compute; reflexivity|].
  intros H. apply (f_equal (fun w => (announcements_collection w !! 1) ≫= (.!! "message"))) in H.
  vm_compute in H. discriminate H.
Qed.

(** X9: on the reference store, no route changes the teachers collection. *)
Theorem teachers_never_change (new_id : world -> ObjectId) `{DT : DatetimeLib}
    (r : protected_request) (now : string) (user : option string) (w : world) :
  teachers_collection (snd (serve (D := reference_store new_id) r user w))
  = teachers_collection w
  /\ teachers_collection (snd (GET_active (D := reference_store new_id) now w))
     = teachers_collection w.
Proof.
  split; [|by rewrite list_active_reads].
  destruct r; cbn [serve].
  - by rewrite list_all_reads.
  - destruct (create_effect new_id now0 message expiration_date start_date user w)
      as [(u & _ & _ & _ & _ & ->)|[_ ->]]; done.
  - destruct (update_effect new_id now0 announcement_id message expiration_date start_date
                user w) as [(u & o & i & d & _ & _ & _ & _ & _ & ->)|[_ ->]]; done.
  - destruct (delete_effect new_id announcement_id user w)
      as [(u & o & i & d & _ & _ & _ & _ & ->)|[_ ->]]; done.
Qed.

(** X10: on the reference store, whatever create answers, the announcements
    it found are still there, in place, and at most one was added. *)
Theorem create_only_appends (new_id : world -> ObjectId) `{DT : DatetimeLib}
    (now message expiration_date : string) (start_date user : option string) (w : world) :
  let w' := snd (POST_create (D := reference_store new_id) now message expiration_date
                   start_date user w) in
  announcements_collection w `prefix_of` announcements_collection w'
  /\ length (announcements_collection w') <= S (length (announcements_collection w)).
Proof.
  intros w'. subst w'.
  destruct (create_effect new_id now message expiration_date start_date user w)
    as [(u & _ & _ & _ & _ & ->)|[_ ->]]; cbn [snd announcements_collection].
  - split; [by apply prefix_app_r|]. rewrite length_app. simpl. lia.
  - split; [done|lia].
Qed.

(** X11: on the reference store, whatever update answers, the records carry
    the same identifiers in the same places and at most one record differs. *)
Theorem update_keeps_identifiers (new_id : world -> ObjectId) `{DT : DatetimeLib}
    (now announcement_id message expiration_date : string)
    (start_date user : option string) (w : world) :
  let w' := snd (PUT_update (D := reference_store new_id) now announcement_id message
                   expiration_date start_date user w) in
  (fun d : doc => d !! "_id") <$> announcements_collection w'
  = (fun d : doc => d !! "_id") <$> announcements_collection w
  /\ exists i, forall j, j <> i ->
       announcements_collection w' !! j = announcements_collection w !! j.
Proof.
  intros w'. subst w'.
  destruct (update_effect new_id now announcement_id message expiration_date start_date
              user w) as [(u & o & i & d & _ & _ & _ & _ & Hfm & ->)|[_ ->]];
    cbn [snd announcements_collection].
  - apply list_find_Some in Hfm as (Hi & _). split.
    + rewrite list_fmap_insert. rewrite apply_set_keeps.
      * apply list_insert_id. by rewrite list_lookup_fmap, Hi.
      * cbn. rewrite !not_elem_of_cons. repeat split; try done. apply not_elem_of_nil.
    + exists i. intros j Hj. by apply list_lookup_insert_ne.
  - split; [done|]. by exists 0.
Qed.

(** X12: on the reference store, whatever delete answers, what is left is a
    sublist of what was there, at most one record shorter. *)
Theorem delete_removes_at_most_one (new_id : world -> ObjectId)
    (announcement_id : string) (user : option string) (w : world) :
  let w' := snd (DELETE_delete (D := reference_store new_id) announcement_id user w) in
  announcements_collection w' `sublist_of` announcements_collection w
  /\ length (announcements_collection w) <= S (length (announcements_collection w')).
Proof.
  intros w'. subst w'.
  destruct (delete_effect new_id announcement_id user w)
    as [(u & o & i & d & _ & _ & _ & Hfm & ->)|[_ ->]];
    cbn [snd announcements_collection].
  - apply list_find_Some in Hfm as (Hi & _). split; [apply sublist_delete|].
    rewrite length_delete by eauto. lia.
  - split; [done|lia].
Qed.

Lemma apply_set_update_fields_idem now message expiration_date start_date u (d : doc) :
  apply_set (update_fields now message expiration_date start_date u)
    (apply_set (update_fields now message expiration_date start_date u) d)
  = apply_set (update_fields now message expiration_date start_date u) d.
Proof.
  rewrite !apply_set_update_fields.
  apply map_eq. intros k.
  destruct (decide (k = "updated_at")) as [->|?]; [by simplify_map_eq|].
  destruct (decide (k = "updated_by")) as [->|?]; [by simplify_map_eq|].
  destruct (decide (k = "start_date")) as [->|?]; [by simplify_map_eq|].
  destruct (decide (k = "expiration_date")) as [->|?]; [by simplify_map_eq|].
  destruct (decide (k = "message")) as [->|?]; by simplify_map_eq.
Qed.

(** X13: on the reference store, repeating an update request (same arguments,
    same clock reading) gives the same answer and the same store. *)
Theorem update_is_idempotent (new_id : world -> ObjectId) `{DT : DatetimeLib}
    (now announcement_id message expiration_date : string)
    (start_date user : option string) (w : world) :
  let result := PUT_update (D := reference_store new_id) now announcement_id message
                  expiration_date start_date user w in
  PUT_update (D := reference_store new_id) now announcement_id message expiration_date
    start_date user (snd result) = result.
Proof.
  intros result. subst result.
  destruct (update_effect new_id now announcement_id message expiration_date start_date
              user w) as [(u & o & i & d & -> & Hex & Hv & Hid & Hfm & Heq)|[_ Hw]].
  - cbn zeta in Heq. rewrite Heq. cbn [snd].
    set (d' := apply_set (update_fields now message expiration_date start_date u) d) in *.
    set (w1 := World (teachers_collection w) (<[i := d']> (announcements_collection w))).
    assert (Hd' : d' !! "_id" = Some (VOid o)).
    { unfold d'. rewrite apply_set_keeps.
      - unfold id_query in Hfm. by apply first_match_id_Some in Hfm as (_ & ? & _).
      - cbn. rewrite !not_elem_of_cons. repeat split; try done. apply not_elem_of_nil. }
    pose proof (first_match_insert_same o _ i d d' Hfm Hd') as Hfm1.
    assert (Hex1 : teacher_exists u w1) by exact Hex.
    rewrite (route_update new_id now announcement_id message expiration_date start_date
               u w1 o i d' Hex1 Hv Hid Hfm1).
    cbn [teachers_collection announcements_collection w1].
    unfold d'. rewrite apply_set_update_fields_idem.
    by rewrite list_insert_insert_eq.
  - by rewrite Hw.
Qed.

Lemma update_fields_override now1 message1 expiration1 start1 u1
    now2 message2 expiration2 start2 u2 (d : doc) :
  apply_set (update_fields now2 message2 expiration2 start2 u2)
    (apply_set (update_fields now1 message1 expiration1 start1 u1) d)
  = apply_set (update_fields now2 message2 expiration2 start2 u2) d.
Proof.
  rewrite !apply_set_update_fields.
  apply map_eq. intros k.
  destruct (decide (k = "updated_at")) as [->|?]; [by simplify_map_eq|].
  destruct (decide (k = "updated_by")) as [->|?]; [by simplify_map_eq|].
  destruct (decide (k = "start_date")) as [->|?]; [by simplify_map_eq|].
  destruct (decide (k = "expiration_date")) as [->|?]; [by simplify_map_eq|].
  destruct (decide (k = "message")) as [->|?]; by simplify_map_eq.
Qed.

(** X14: on the reference store, an update that succeeds gives the same answer
    and the same store whether or not another update of the same identifier
    ran before it: nothing of the earlier update survives. *)
Theorem later_update_overwrites (new_id : world -> ObjectId) `{DT : DatetimeLib}
    (announcement_id : string)
    (now1 message1 expiration1 : string) (start1 user1 : option string)
    (now2 message2 expiration2 : string) (start2 user2 : option string) (w : world) :
  status (fst (PUT_update (D := reference_store new_id) now2 announcement_id message2
                 expiration2 start2 user2 w)) = 200 ->
  PUT_update (D := reference_store new_id) now2 announcement_id message2 expiration2
    start2 user2
    (snd (PUT_update (D := reference_store new_id) now1 announcement_id message1
            expiration1 start1 user1 w))
  = PUT_update (D := reference_store new_id) now2 announcement_id message2 expiration2
      start2 user2 w.
Proof.
  intros H200.
  destruct (update_effect new_id now1 announcement_id message1 expiration1 start1 user1 w)
    as [(u1 & o & i & d & _ & _ & _ & Hid & Hfm & Heq1)|[_ ->]]; [|done].
  cbn zeta in Heq1. rewrite Heq1. cbn [snd].
  destruct (update_effect new_id now2 announcement_id message2 expiration2 start2 user2 w)
    as [(u2 & o2 & i2 & d2 & -> & Hex & Hv & Hid2 & Hfm2 & Heq2)|[Hno _]]; [|done].
  rewrite Hid in Hid2. injection Hid2 as <-. rewrite Hfm in Hfm2. injection Hfm2 as <- <-.
  cbn zeta in Heq2. rewrite Heq2.
  set (d1 := apply_set (update_fields now1 message1 expiration1 start1 u1) d).
  assert (Hd1 : d1 !! "_id" = Some (VOid o)).
  { unfold d1. rewrite apply_set_keeps.
    - unfold id_query in Hfm. by apply first_match_id_Some in Hfm as (_ & ? & _).
    - cbn. rewrite !not_elem_of_cons. repeat split; try done. apply not_elem_of_nil. }
  rewrite (route_update new_id now2 announcement_id message2 expiration2 start2 u2
             (World (teachers_collection w) (<[i := d1]> (announcements_collection w)))
             o i d1 Hex Hv Hid (first_match_insert_same o _ i d d1 Hfm Hd1)).
  cbn [teachers_collection announcements_collection]. unfold d1.
  rewrite update_fields_override. by rewrite list_insert_insert_eq.
Qed.

(** X14 on the small school. *)
Lemma later_update_overwrites_witness :
  PUT_update (D := reference_store next_oid) "2025-06-02T09:00:00"
    "65a1b2c3d4e5f60718293a4b" "Second" "2099-01-01T00:00:00Z" None (Some "mrodriguez")
    (snd (PUT_update (D := reference_store next_oid) june "65a1b2c3d4e5f60718293a4b"
            "First" "2027-01-01" (Some "2026-01-01") (Some "mrodriguez") school))
  = PUT_update (D := reference_store next_oid) "2025-06-02T09:00:00"
      "65a1b2c3d4e5f60718293a4b" "Second" "2099-01-01T00:00:00Z" None (Some "mrodriguez")
      school.
Proof.
  apply (later_update_overwrites next_oid "65a1b2c3d4e5f60718293a4b"
           june "First" "2027-01-01" (Some "2026-01-01") (Some "mrodriguez")
           "2025-06-02T09:00:00" "Second" "2099-01-01T00:00:00Z" None (Some "mrodriguez")
           school).
  vm_compute. reflexivity.
Defined.

Lemma delete_last {A} (l : list A) (x : A) : delete (length l) (l ++ [x])%list = l.
Proof. induction l as [|y l IH]; simpl; [done|]. by rewrite IH. Qed.

Lemma first_match_appended o (l : list doc) (d : doc) :
  (forall d0, d0 ∈ l -> d0 !! "_id" <> Some (VOid o)) -> d !! "_id" = Some (VOid o) ->
  first_match (id_query o) (l ++ [d])%list = Some (length l, d).
Proof.
  intros Hno Hd. unfold id_query. apply first_match_id_Some; [done|].
  split; [|split; [done|]].
  - rewrite lookup_app_r by lia. by rewrite Nat.sub_diag.
  - intros j d0 Hj Hlt. rewrite lookup_app_l in Hj by lia.
    apply Hno. by eapply list_elem_of_lookup_2.
Qed.

(** X15: on the reference store, the [id] create returns (a well-formed
    ObjectId) is accepted by delete, which answers 200 and restores the store
    create started from. *)
Theorem create_then_delete_restores (new_id : world -> ObjectId) `{DT : DatetimeLib}
    (now message expiration_date : string) (start_date : option string)
    (u : string) (w : world) :
  teacher_exists u w -> dates_valid expiration_date start_date -> no_record (new_id w) w ->
  ObjectId_of_str (py_str (VOid (new_id w))) = Some (new_id w) ->
  exists created w1,
    POST_create (D := reference_store new_id) now message expiration_date start_date
      (Some u) w
    = (Response 201 (JObject created), w1)
    /\ created !! "id" = Some (VStr (py_str (VOid (new_id w))))
    /\ DELETE_delete (D := reference_store new_id) (py_str (VOid (new_id w))) (Some u) w1
       = (Response 200 (JObject {[ "message" := VStr "Announcement deleted successfully" ]}),
          w).
Proof.
  intros Hex Hv Hfresh Hwf. do 2 eexists. split; [|split].
  - by rewrite (route_create new_id).
  - apply lookup_insert_eq.
  - set (stored := <["_id" := VOid (new_id w)]>
                     (new_fields now message expiration_date start_date u)).
    set (w1 := World (teachers_collection w) (announcements_collection w ++ [stored])).
    assert (Hex1 : teacher_exists u w1) by exact Hex.
    unfold DELETE_delete, respond, delete_announcement, bind.
    rewrite (check_teacher_resolves _ _ _ (store_resolves new_id u w1 Hex1)).
    unfold try_except, bind, of_option. rewrite Hwf. unfold ret at 1.
    rewrite (call_store_delete new_id _ w1 (length (announcements_collection w)) stored).
    + cbn [teachers_collection announcements_collection w1 Nat.eqb].
      rewrite delete_last. unfold ret. by destruct w.
    + apply (first_match_appended (new_id w)); [exact Hfresh|apply lookup_insert_eq].
Qed.

(** X15 on the small school. *)
Lemma create_then_delete_restores_witness :
  exists created w1,
    POST_create (D := reference_store next_oid) june "Hello" "2099-01-01T00:00:00Z"
      (Some "2098-01-01") (Some "mrodriguez") school
    = (Response 201 (JObject created), w1)
    /\ created !! "id" = Some (VStr (py_str (VOid (next_oid school))))
    /\ DELETE_delete (D := reference_store next_oid) (py_str (VOid (next_oid school)))
         (Some "mrodriguez") w1
       = (Response 200 (JObject {[ "message" := VStr "Announcement deleted successfully" ]}),
          school).
Proof.
  apply (create_then_delete_restores next_oid june "Hello" "2099-01-01T00:00:00Z"
           (Some "2098-01-01") "mrodriguez" school school_teacher dates_2099
           school_no_generated).
  vm_compute. reflexivity.
Defined.

(** X16: on the reference store, after a create that succeeds, list-active
    answers 200 when the records the store held have the data model's types,
    and in every answer 200 the created announcement is listed exactly when
    its [expiration_date] is lexically at or after the time asked for and its
    [start_date] is missing or lexically at or before it. *)
Theorem created_announcement_visibility (new_id : world -> ObjectId) `{DT : DatetimeLib}
    (now message expiration_date : string) (start_date : option string)
    (u : string) (w : world) (later : string) :
  teacher_exists u w -> dates_valid expiration_date start_date -> no_record (new_id w) w ->
  exists created w1,
    POST_create (D := reference_store new_id) now message expiration_date start_date
      (Some u) w
    = (Response 201 (JObject created), w1)
    /\ (Forall announcement_typed (announcements_collection w) ->
        status (fst (GET_active (D := reference_store new_id) later w1)) = 200)
    /\ (forall listed w2,
          GET_active (D := reference_store new_id) later w1
          = (Response 200 (JArray listed), w2) ->
          created ∈ listed <->
          String.le later expiration_date
          /\ (start_date = None \/ exists s, start_date = Some s /\ String.le s later)).
Proof.
  intros Hex Hv Hfresh.
  set (fields := new_fields now message expiration_date start_date u).
  set (stored := <["_id" := VOid (new_id w)]> fields).
  set (w1 := World (teachers_collection w) (announcements_collection w ++ [stored])).
  assert (Hact : is_active later stored <->
                 String.le later expiration_date
                 /\ (start_date = None \/ exists s, start_date = Some s /\ String.le s later)).
  { unfold is_active, not_expired, started, stored, fields, new_fields.
    rewrite !(lookup_insert_ne _ "_id") by done.
    rewrite !(lookup_insert_ne _ "message") by done.
    rewrite lookup_insert_eq.
    rewrite (lookup_insert_ne _ "expiration_date") by done. rewrite lookup_insert_eq.
    destruct start_date as [s|]; simpl.
    - split; intros [? H]; (split; [done|]).
      + right. eauto.
      + by destruct H as [?|(s' & [= <-] & ?)].
    - split; intros [? _]; (split; [done|]); [by left|done]. }
  exists (serialize_announcement stored), w1.
  split; [|split].
  - rewrite (route_create new_id) by done.
    unfold stored, fields. by rewrite serialize_stored.
  - intros Hty. rewrite route_get_active; [done|].
    apply Forall_app. split; [done|]. apply Forall_singleton, stored_typed.
  - intros listed w2 [-> _]%route_get_active_returns.
    rewrite <- Hact. rewrite list_elem_of_fmap. split.
    + intros (d0 & Heq & [[Hexp Hst] _]%list_elem_of_filter).
      unfold is_active, not_expired, started in *.
      rewrite <- !(serialize_keeps stored) by done. rewrite Heq.
      by rewrite !serialize_keeps by done.
    + intros Hs. exists stored. split; [done|]. apply list_elem_of_filter. split; [done|].
      apply elem_of_app. right. by apply list_elem_of_singleton.
Qed.

(** X16 on the small school. *)
Lemma created_announcement_visibility_witness :
  exists created w1,
    POST_create (D := reference_store next_oid) june "Hello" "2099-01-01T00:00:00Z"
      (Some "2098-01-01") (Some "mrodriguez") school
    = (Response 201 (JObject created), w1)
    /\ status (fst (GET_active (D := reference_store next_oid) "2098-06-01T00:00:00" w1))
       = 200
    /\ (forall listed w2,
          GET_active (D := reference_store next_oid) "2098-06-01T00:00:00" w1
          = (Response 200 (JArray listed), w2) ->
          created ∈ listed <->
          String.le "2098-06-01T00:00:00" "2099-01-01T00:00:00Z"
          /\ (Some "2098-01-01" = None
              \/ exists s, Some "2098-01-01" = Some s /\ String.le s "2098-06-01T00:00:00")).
Proof.
  destruct (created_announcement_visibility next_oid june "Hello" "2099-01-01T00:00:00Z"
              (Some "2098-01-01") "mrodriguez" school "2098-06-01T00:00:00"
              school_teacher dates_2099 school_no_generated)
    as (created & w1 & Hpost & Hok & Hlisted).
  exists created, w1. split; [exact Hpost|]. split; [|exact Hlisted].
  apply Hok, school_announcements_typed.
Defined.

Lemma route_get_all_returns new_id u l w w' :
  teacher_exists u w ->
  GET_all (D := reference_store new_id) (Some u) w = (Response 200 (JArray l), w') ->
  l = serialize_announcement <$>
        merge_sort (sort_order "expiration_date" (-1)) (announcements_collection w)
  /\ w' = w.
Proof.
  intros Hu. rewrite (route_get_all _ _ _ Hu).
  destruct (decide _); [by intros [= <- <-]|intros [=]].
Qed.

(** X17: on the reference store, both listings answer 200 when the records
    have the data model's types, and whenever both answer 200 every record
    list-active shows is among those list-all shows. *)
Theorem active_listing_is_part_of_all (new_id : world -> ObjectId)
    (now u : string) (w : world) :
  teacher_exists u w ->
  (Forall announcement_typed (announcements_collection w) ->
   status (fst (GET_active (D := reference_store new_id) now w)) = 200
   /\ status (fst (GET_all (D := reference_store new_id) (Some u) w)) = 200)
  /\ (forall active all w1 w2,
        GET_active (D := reference_store new_id) now w = (Response 200 (JArray active), w1) ->
        GET_all (D := reference_store new_id) (Some u) w = (Response 200 (JArray all), w2) ->
        active ⊆ all /\ length active <= length all).
Proof.
  intros Hex. split.
  - intros Hty. split; [by rewrite route_get_active|].
    rewrite (route_get_all _ _ _ Hex). rewrite decide_True; [done|].
    by apply typed_store_json.
  - intros active all w1 w2 [-> _]%route_get_active_returns
      [-> _]%(route_get_all_returns _ _ _ _ _ Hex).
    split.
    + intros r (d & -> & [_ Hd]%list_elem_of_filter)%list_elem_of_fmap.
      apply list_elem_of_fmap. exists d. split; [done|]. by rewrite merge_sort_Permutation.
    + rewrite !length_fmap. rewrite merge_sort_Permutation. apply length_filter.
Qed.

(** X17 on the small school. *)
Lemma active_listing_is_part_of_all_witness :
  exists active all,
    GET_active (D := reference_store next_oid) june school
    = (Response 200 (JArray active), school)
    /\ GET_all (D := reference_store next_oid) (Some "mrodriguez") school
       = (Response 200 (JArray all), school)
    /\ active ⊆ all
    /\ length active <= length all.
Proof.
  pose proof (route_get_active next_oid june school school_announcements_typed) as Hactive.
  pose proof all_for_rodriguez as Hall.
  do 2 eexists. split; [exact Hactive|]. split; [exact Hall|].
  exact (proj2 (active_listing_is_part_of_all next_oid june "mrodriguez" school
                  school_teacher) _ _ _ _ Hactive Hall).
Defined.

Lemma active_loop_mistyped now cursor acc w (d : doc) o :
  d ∈ cursor -> d !! "start_date" = Some (VOid o) ->
  active_loop now cursor acc w = (Raise TypeError, w).
Proof.
  intros Hin Hd. revert acc. induction cursor as [|d0 cursor IH]; intros acc.
  - by apply elem_of_nil in Hin.
  - simpl. unfold bind, py_get.
    destruct (d0 !! "start_date") as [[|s|o0]|] eqn:Hs; simpl.
    + apply IH. apply elem_of_cons in Hin as [->|?]; [congruence|done].
    + assert (Hrest : d ∈ cursor).
      { apply elem_of_cons in Hin as [->|?]; [congruence|done]. }
      destruct (str_truthy s); simpl.
      * unfold ret. destruct (String.ltb now s); by apply IH.
      * by apply IH.
    + done.
    + apply IH. apply elem_of_cons in Hin as [->|?]; [congruence|done].
Qed.

(** X18: on the reference store, one unexpired record whose [start_date] is
    an ObjectId makes list-active answer 500: the comparison with the current
    time raises [TypeError], which nothing catches. *)
Theorem mistyped_start_date_breaks_listing (new_id : world -> ObjectId)
    (now : string) (w : world) (d : doc) (o : ObjectId) :
  d ∈ announcements_collection w -> not_expired now d ->
  d !! "start_date" = Some (VOid o) ->
  GET_active (D := reference_store new_id) now w = (internal_error, w).
Proof.
  intros Hin Hexp Hd. unfold GET_active, respond, get_active_announcements, bind.
  rewrite call_store_find. unfold apply_sort, get_collection.
  rewrite (active_loop_mistyped now _ [] w d o); [done| |done].
  apply list_elem_of_filter. split; [|done]. by apply matches_gte.
Qed.

(** X18 on the small school. *)
Lemma mistyped_start_date_breaks_listing_witness :
  GET_active (D := reference_store next_oid) june school_mistyped
  = (internal_error, school_mistyped).
Proof.
  apply (mistyped_start_date_breaks_listing next_oid june school_mistyped
           announcement_mistyped oid_past).
  - apply list_elem_of_further, list_elem_of_here.
  - vm_compute. exact I.
  - reflexivity.
Defined.

(** X19 on the small school: a create keeps the store well-formed. *)
Lemma serve_keeps_ok_witness :
  store_ok (snd (serve (D := reference_store next_oid)
                   (Create june "Hello" "2099-01-01T00:00:00Z" (Some "2098-01-01"))
                   (Some "mrodriguez") school)).
Proof.
  exact (serve_keeps_ok next_oid
           (Create june "Hello" "2099-01-01T00:00:00Z" (Some "2098-01-01"))
           (Some "mrodriguez") school school_store_ok).
Defined.
